(** * Verification of [initialize.py]

    The module wires a Streamlit session: it fills the session-state store,
    draws a session id, configures the process-wide logger and builds the
    agent executor.  The development below embeds the four initialisation
    functions and [initialize] as programs of a small state-and-exception
    monad over an explicit world (session state, file system, logging
    registry, entropy), and proves the properties the specification states
    about them. *)

From Stdlib Require Import ZArith QArith Ascii String.
From stdpp Require Import gmap strings list pretty.

Local Open Scope Z_scope.
Local Open Scope string_scope.

(** ** Data model *)

(** The callables bound to the tools ([utils.run_*_doc_chain] and the
    [run] method of the [SerpAPIWrapper] instance). *)
Inductive Callable :=
| run_company_doc_chain
| run_service_doc_chain
| run_customer_doc_chain
| search_run
| run_all_data_doc_chain.

(** [langchain.tools.Tool(name=..., func=..., description=...)]. *)
Record Tool := mkTool {
  tool_name : string;
  tool_func : Callable;
  tool_description : string
}.

Inductive AgentType := ZERO_SHOT_REACT_DESCRIPTION.

(** Python values that the session-state store can hold. *)
#[warnings="-register-all"]
Inductive value :=
| VNone
| VBool (b : bool)
| VInt (n : Z)
| VStr (s : string)
| VList (l : list value)
| VEncoding (kind : string)
| VChatOpenAI (model_name : string) (temperature : Q) (streaming : bool)
| VRagChain (db_path : string)
| VAgentExecutor (llm : value) (tools : list Tool) (agent : AgentType)
    (max_iterations : Z) (early_stopping_method : string)
    (handle_parsing_errors : bool).

(** The module [constants] (imported as [ct]) is not part of the analysed
    sources; its attributes used by [initialize.py] are taken as a record of
    parameters. *)
Record Constants := mkConstants {
  LOG_DIR_PATH : string;
  LOGGER_NAME : string;
  LOG_FILE : string;
  ENCODING_KIND : string;
  MODEL : string;
  TEMPERATURE : Q;
  DB_CUSTOMER_PATH : string;
  DB_SERVICE_PATH : string;
  DB_COMPANY_PATH : string;
  DB_ALL_PATH : string;
  SEARCH_COMPANY_INFO_TOOL_NAME : string;
  SEARCH_SERVICE_INFO_TOOL_NAME : string;
  SEARCH_CUSTOMER_COMMUNICATION_INFO_TOOL_NAME : string;
  SEARCH_WEB_INFO_TOOL_NAME : string;
  SEARCH_ALL_DATA_TOOL_NAME : string;
  AI_AGENT_MAX_ITERATIONS : Z
}.

(** What the interpreter and the operating system supply: the hexadecimal
    ids that successive [uuid4()] calls return, and [str()] on values that
    are not strings. *)
Record Runtime := mkRuntime {
  uuid4_hex : nat -> string;
  str_of : value -> string
}.

(** A [TimedRotatingFileHandler] with the formatter set on it. *)
Record Handler := mkHandler {
  h_filename : string;
  h_when : string;
  h_interval : Z;          (* seconds between two rollovers *)
  h_backupCount : Z;
  h_encoding : string;
  h_formatter : option string
}.

(** A [logging.Logger]. *)
Record Logger := mkLogger {
  lg_level : Z;
  lg_handlers : list Handler;
  lg_propagate : bool
}.

Definition NOTSET : Z := 0.
Definition INFO : Z := 20.

Definition WARNING : Z := 30.

(** The root logger as the [logging] module creates it. *)
Definition root_logger : Logger :=
  {| lg_level := WARNING; lg_handlers := []; lg_propagate := true |}.

(** The logger that [logging.getLogger] creates for a new name. *)
Definition new_logger : Logger :=
  {| lg_level := NOTSET; lg_handlers := []; lg_propagate := true |}.

(** The world the module acts on.  [w_logger] is the logger registered
    under [LOGGER_NAME] ([None] until [getLogger] first creates it);
    [w_ancestors] is its chain of parents, nearest first, up to the root
    logger; [w_entropy] counts the ids drawn from [uuid4]. *)
Record World := mkWorld {
  w_session : gmap string value;
  w_dirs : gset string;
  w_files : gset string;
  w_logger : option Logger;
  w_ancestors : list Logger;
  w_entropy : nat
}.

Definition set_session (f : gmap string value -> gmap string value) (w : World) : World :=
  {| w_session := f (w_session w); w_dirs := w_dirs w; w_files := w_files w;
     w_logger := w_logger w; w_ancestors := w_ancestors w; w_entropy := w_entropy w |}.

Definition set_dirs (f : gset string -> gset string) (w : World) : World :=
  {| w_session := w_session w; w_dirs := f (w_dirs w); w_files := w_files w;
     w_logger := w_logger w; w_ancestors := w_ancestors w; w_entropy := w_entropy w |}.

Definition set_files (f : gset string -> gset string) (w : World) : World :=
  {| w_session := w_session w; w_dirs := w_dirs w; w_files := f (w_files w);
     w_logger := w_logger w; w_ancestors := w_ancestors w; w_entropy := w_entropy w |}.

Definition set_logger (l : option Logger) (w : World) : World :=
  {| w_session := w_session w; w_dirs := w_dirs w; w_files := w_files w;
     w_logger := l; w_ancestors := w_ancestors w; w_entropy := w_entropy w |}.

Definition set_entropy (n : nat) (w : World) : World :=
  {| w_session := w_session w; w_dirs := w_dirs w; w_files := w_files w;
     w_logger := w_logger w; w_ancestors := w_ancestors w; w_entropy := n |}.

(** The registered logger as a reader sees it: a name not yet registered
    behaves as a new logger. *)
Definition the_logger (w : World) : Logger := default new_logger (w_logger w).

(** ** Effects *)

Inductive Exn :=
| AttributeError (attr : string)
| ValueError (msg : string).

(** What a run leaves behind, in program order. *)
Inductive Event :=
| Enter (fn : string)
| EvSetAttr (key : string)
| EvGetAttr (key : string)
| EvUuid4
| EvMakedirs (path : string)
| EvGetLogger (name : string)
| EvHasHandlers (answer : bool)
| EvOpenHandler (filename : string)
| EvFormatter (fmt : string)
| EvSetFormatter
| EvSetLevel (level : Z)
| EvAddHandler
| EvGetEncoding (kind : string)
| EvChatOpenAI
| EvCreateRagChain (db_path : string)
| EvSerpAPIWrapper
| EvInitializeAgent.

(** Outcome of running a program: the value or the exception raised, the
    world it leaves (effects performed before an exception persist), and the
    events it produced. *)
Record Outcome (A : Type) := mkOutcome {
  result : Exn + A;
  final : World;
  trace : list Event
}.
Arguments mkOutcome {A} _ _ _.
Arguments result {A} _.
Arguments final {A} _.
Arguments trace {A} _.

Definition M (A : Type) : Type := World -> Outcome A.

Definition ret {A} (a : A) : M A := fun w => mkOutcome (inr a) w [].

Definition bind {A B} (k : A -> M B) (m : M A) : M B := fun w =>
  let o := m w in
  match result o with
  | inl e => mkOutcome (inl e) (final o) (trace o)
  | inr a => let o' := k a (final o) in
             mkOutcome (result o') (final o') (trace o ++ trace o')
  end.

#[global] Instance M_ret : MRet M := @ret.
#[global] Instance M_bind : MBind M := @bind.

Definition raise {A} (e : Exn) : M A := fun w => mkOutcome (inl e) w [].
Definition emit (e : Event) : M unit := fun w => mkOutcome (inr tt) w [e].
Definition gets {A} (f : World -> A) : M A := fun w => mkOutcome (inr (f w)) w [].
Definition modify (f : World -> World) : M unit := fun w => mkOutcome (inr tt) (f w) [].

(** ** The library calls the module makes *)

(** [key in st.session_state] *)
Definition st_contains (key : string) : M bool :=
  gets (fun w => bool_decide (is_Some (w_session w !! key))).

(** [st.session_state.key = v] *)
Definition st_setattr (key : string) (v : value) : M unit :=
  emit (EvSetAttr key) ;; modify (set_session (insert key v)).

(** [st.session_state.key]; a missing key raises [AttributeError]. *)
Definition st_getattr (key : string) : M value :=
  emit (EvGetAttr key) ;;
  s ← gets w_session;
  match s !! key with
  | Some v => ret v
  | None => raise (AttributeError key)
  end.

(** [uuid4().hex] *)
Definition uuid4 (rt : Runtime) : M string :=
  emit EvUuid4 ;;
  n ← gets w_entropy;
  modify (set_entropy (S n)) ;;
  ret (uuid4_hex rt n).

(** [os.makedirs(path, exist_ok=True)]: the directory exists afterwards. *)
Definition os_makedirs (path : string) : M unit :=
  emit (EvMakedirs path) ;; modify (set_dirs (fun d => {[ path ]} ∪ d)).

Fixpoint ends_with_slash (s : string) : bool :=
  match s with
  | EmptyString => false
  | String c EmptyString => bool_decide (c = "/"%char)
  | String _ r => ends_with_slash r
  end.

(** [os.path.join(a, b)] on a POSIX system. *)
Definition os_path_join (a b : string) : string :=
  if String.prefix "/" b then b
  else if bool_decide (a = "") || ends_with_slash a then a ++ b
  else a ++ "/" ++ b.

(** [logging.getLogger(name)] for [name = LOGGER_NAME]: registers a new
    logger on first use. *)
Definition getLogger (name : string) : M Logger :=
  emit (EvGetLogger name) ;;
  l ← gets w_logger;
  match l with
  | Some lg => ret lg
  | None => modify (set_logger (Some new_logger)) ;; ret new_logger
  end.

(** The loop of [Logger.hasHandlers]: walk from the logger up its parents,
    stop at the first logger with a handler or with propagation off. *)
Fixpoint chain_has_handlers (chain : list Logger) : bool :=
  match chain with
  | [] => false
  | c :: up =>
      match lg_handlers c with
      | _ :: _ => true
      | [] => if lg_propagate c then chain_has_handlers up else false
      end
  end.

Definition has_handlers (w : World) : bool :=
  chain_has_handlers (the_logger w :: w_ancestors w).

(** [logger.hasHandlers()] *)
Definition hasHandlers : M bool :=
  b ← gets has_handlers;
  emit (EvHasHandlers b) ;;
  ret b.

(** Seconds in the unit that [when] names, as [TimedRotatingFileHandler]
    computes them (the module passes the upper-case "D"; the weekday forms
    W0 to W6, which it does not use, are left out). *)
Definition when_seconds (when : string) : option Z :=
  if bool_decide (when = "S") then Some 1
  else if bool_decide (when = "M") then Some 60
  else if bool_decide (when = "H") then Some 3600
  else if bool_decide (when = "D") || bool_decide (when = "MIDNIGHT") then Some 86400
  else None.

(** [TimedRotatingFileHandler(filename, when=when, encoding=encoding)] with
    the defaults [interval=1], [backupCount=0], [delay=False]: the file is
    opened (hence created) at construction. *)
Definition TimedRotatingFileHandler (filename when encoding : string) : M Handler :=
  emit (EvOpenHandler filename) ;;
  match when_seconds when with
  | None => raise (ValueError "Invalid rollover interval specified")
  | Some secs =>
      modify (set_files (fun f => {[ filename ]} ∪ f)) ;;
      ret {| h_filename := filename; h_when := when; h_interval := secs * 1;
             h_backupCount := 0; h_encoding := encoding; h_formatter := None |}
  end.

(** [logging.Formatter(fmt)] *)
Definition Formatter (fmt : string) : M string :=
  emit (EvFormatter fmt) ;; ret fmt.

(** [handler.setFormatter(formatter)] *)
Definition setFormatter (h : Handler) (fmt : string) : M Handler :=
  emit EvSetFormatter ;;
  ret {| h_filename := h_filename h; h_when := h_when h; h_interval := h_interval h;
         h_backupCount := h_backupCount h; h_encoding := h_encoding h;
         h_formatter := Some fmt |}.

(** [logger.setLevel(level)] on the registered logger. *)
Definition setLevel (level : Z) : M unit :=
  emit (EvSetLevel level) ;;
  modify (fun w => set_logger (Some {| lg_level := level;
                                       lg_handlers := lg_handlers (the_logger w);
                                       lg_propagate := lg_propagate (the_logger w) |}) w).

(** [logger.addHandler(h)] on the registered logger (the handler is a new
    object, so it is not yet in the list). *)
Definition addHandler (h : Handler) : M unit :=
  emit EvAddHandler ;;
  modify (fun w => set_logger (Some {| lg_level := lg_level (the_logger w);
                                       lg_handlers := lg_handlers (the_logger w) ++ [h];
                                       lg_propagate := lg_propagate (the_logger w) |}) w).

(** [str(v)], as an f-string applies it to an interpolated value. *)
Definition py_str (rt : Runtime) (v : value) : string :=
  match v with
  | VStr s => s
  | _ => str_of rt v
  end.

(** [tiktoken.get_encoding(kind)] *)
Definition get_encoding (kind : string) : M value :=
  emit (EvGetEncoding kind) ;; ret (VEncoding kind).

(** [ChatOpenAI(model_name=..., temperature=..., streaming=...)] *)
Definition ChatOpenAI (model_name : string) (temperature : Q) (streaming : bool) : M value :=
  emit EvChatOpenAI ;; ret (VChatOpenAI model_name temperature streaming).

(** Modelled from the spec: [utils.create_rag_chain] is not part of the
    analysed sources.  The specification describes each retrieval chain as an
    external collaborator bound to one knowledge partition; it is modelled as
    a constructor of such a chain for the given database path, with no effect
    on the session state, the logger or the log directory. *)
Definition create_rag_chain (db_path : string) : M value :=
  emit (EvCreateRagChain db_path) ;; ret (VRagChain db_path).

(** [SerpAPIWrapper()] *)
Definition SerpAPIWrapper : M Callable :=
  emit EvSerpAPIWrapper ;; ret search_run.

(** [initialize_agent(llm=..., tools=..., agent=..., max_iterations=...,
    early_stopping_method=..., handle_parsing_errors=...)] *)
Definition initialize_agent (llm : value) (tools : list Tool) (agent : AgentType)
    (max_iterations : Z) (early_stopping_method : string)
    (handle_parsing_errors : bool) : M value :=
  emit EvInitializeAgent ;;
  ret (VAgentExecutor llm tools agent max_iterations early_stopping_method
         handle_parsing_errors).

(** ** The functions of [initialize.py] *)

Section Initialize.

Variable ct : Constants.
Variable rt : Runtime.

Definition initialize_session_state : M unit :=
  emit (Enter "initialize_session_state");;
  present ← st_contains "messages";
  if negb present then
    st_setattr "messages" (VList []);;
    st_setattr "chat_history" (VList []);;
    st_setattr "total_tokens" (VInt 0);;
    st_setattr "feedback_yes_flg" (VBool false);;
    st_setattr "feedback_no_flg" (VBool false);;
    st_setattr "answer_flg" (VBool false);;
    st_setattr "dissatisfied_reason" (VStr "");;
    st_setattr "feedback_no_reason_send_flg" (VBool false)
  else ret tt.

Definition initialize_session_id : M unit :=
  emit (Enter "initialize_session_id");;
  present ← st_contains "session_id";
  if negb present then
    hex ← uuid4 rt;
    st_setattr "session_id" (VStr hex)
  else ret tt.

(** The f-string that [initialize_logger] passes to [logging.Formatter]. *)
Definition log_format (session_id : string) : string :=
  "[%(levelname)s] %(asctime)s line %(lineno)s, in %(funcName)s, session_id="
    ++ session_id ++ ": %(message)s".

Definition initialize_logger : M unit :=
  emit (Enter "initialize_logger");;
  os_makedirs (LOG_DIR_PATH ct);;
  logger ← getLogger (LOGGER_NAME ct);
  configured ← hasHandlers;
  if (configured : bool) then ret tt
  else
    log_handler ← TimedRotatingFileHandler
                    (os_path_join (LOG_DIR_PATH ct) (LOG_FILE ct)) "D" "utf8";
    session_id ← st_getattr "session_id";
    formatter ← Formatter (log_format (py_str rt session_id));
    log_handler ← setFormatter log_handler formatter;
    setLevel INFO;;
    addHandler log_handler.

(** The list [tools] built in [initialize_agent_executor]. *)
Definition tools (search : Callable) : list Tool :=
  [ mkTool (SEARCH_COMPANY_INFO_TOOL_NAME ct) run_company_doc_chain
      ("会社に関する情報を検索します。このToolは、"
       ++ "会社の概要、歴史、所在地、連絡先情報などを取得するために使用します。"
       ++ "入力には具体的な会社名を含めてください。");
    mkTool (SEARCH_SERVICE_INFO_TOOL_NAME ct) run_service_doc_chain
      ("サービスに関する情報を検索します。このToolは、"
       ++ "提供されているサービスの詳細、料金、利用条件などを取得するために使用します。"
       ++ "入力にはサービス名またはカテゴリを含めてください。");
    mkTool (SEARCH_CUSTOMER_COMMUNICATION_INFO_TOOL_NAME ct) run_customer_doc_chain
      ("顧客とのやり取りに関する情報を検索します。このToolは、"
       ++ "過去の問い合わせ履歴、対応状況、顧客満足度などを取得するために使用します。"
       ++ "入力には顧客名または問い合わせIDを含めてください。");
    mkTool (SEARCH_WEB_INFO_TOOL_NAME ct) search
      ("インターネット上の情報を検索します。このToolは、"
       ++ "一般的な質問や外部情報を取得するために使用します。"
       ++ "入力には具体的な検索クエリを含めてください。");
    mkTool (SEARCH_ALL_DATA_TOOL_NAME ct) run_all_data_doc_chain
      ("すべてのデータベースを横断的に検索します。このToolは、"
       ++ "会社、サービス、顧客情報を含む複数のデータソースから情報を取得するために使用します。"
       ++ "特定のカテゴリに限定されない質問や、複数のカテゴリにまたがる質問に適しています。"
       ++ "例えば、『EcoTeeに関するすべての情報を教えてください』や、"
       ++ "『顧客とサービスに関する関連情報をまとめて教えてください』といった質問に対応します。"
       ++ "入力には具体的なキーワードを含めてください。") ].

Definition initialize_agent_executor : M unit :=
  emit (Enter "initialize_agent_executor");;
  logger ← getLogger (LOGGER_NAME ct);
  present ← st_contains "agent_executor";
  if (present : bool) then ret tt
  else
    enc ← get_encoding (ENCODING_KIND ct);
    st_setattr "enc" enc;;
    llm ← ChatOpenAI (MODEL ct) (TEMPERATURE ct) true;
    st_setattr "llm" llm;;
    chain ← create_rag_chain (DB_CUSTOMER_PATH ct);
    st_setattr "customer_doc_chain" chain;;
    chain ← create_rag_chain (DB_SERVICE_PATH ct);
    st_setattr "service_doc_chain" chain;;
    chain ← create_rag_chain (DB_COMPANY_PATH ct);
    st_setattr "company_doc_chain" chain;;
    chain ← create_rag_chain (DB_ALL_PATH ct);
    st_setattr "rag_chain" chain;;
    search ← SerpAPIWrapper;
    llm ← st_getattr "llm";
    executor ← initialize_agent llm (tools search) ZERO_SHOT_REACT_DESCRIPTION
                 (AI_AGENT_MAX_ITERATIONS ct) "generate" true;
    st_setattr "agent_executor" executor.

Definition initialize : M unit :=
  initialize_session_state;;
  initialize_session_id;;
  initialize_logger;;
  initialize_agent_executor.

End Initialize.

(** The keys that [initialize_session_state] writes. *)
Definition session_state_keys : list string :=
  ["messages"; "chat_history"; "total_tokens"; "feedback_yes_flg";
   "feedback_no_flg"; "answer_flg"; "dissatisfied_reason";
   "feedback_no_reason_send_flg"].

(** The store after the eight assignments of [initialize_session_state]. *)
Definition fresh_session_state (s : gmap string value) : gmap string value :=
  <["feedback_no_reason_send_flg" := VBool false]>
  (<["dissatisfied_reason" := VStr ""]>
  (<["answer_flg" := VBool false]>
  (<["feedback_no_flg" := VBool false]>
  (<["feedback_yes_flg" := VBool false]>
  (<["total_tokens" := VInt 0]>
  (<["chat_history" := VList []]>
  (<["messages" := VList []]> s))))))).

(** ** Calls from several sessions *)

(** [initialize_logger] called once from each of the given sessions of one
    process, in turn: the logger, the file system and the entropy are shared,
    the session-state store is the caller's. *)
Fixpoint initialize_logger_calls (ct : Constants) (rt : Runtime)
    (sessions : list (gmap string value)) : M unit :=
  match sessions with
  | [] => ret tt
  | s :: rest =>
      modify (set_session (fun _ => s));;
      initialize_logger ct rt;;
      initialize_logger_calls ct rt rest
  end.

(** ** Rotation and line format of the log handler *)

(** [TimedRotatingFileHandler.computeRollover(currentTime)], times in
    seconds (UTC): the next rollover is one interval after the reference
    time, except for [MIDNIGHT], which rolls over at the next midnight. *)
Definition computeRollover (h : Handler) (currentTime : Z) : Z :=
  if bool_decide (h_when h = "MIDNIGHT")
  then currentTime + (86400 - currentTime mod 86400)
  else currentTime + h_interval h.

(** A time, in seconds (UTC), that falls on a day boundary: midnight. *)
Definition on_day_boundary (t : Z) : Prop := t mod 86400 = 0.

(** The attributes of a [LogRecord] that the format refers to. *)
Record LogRecord := mkLogRecord {
  levelname : string;
  asctime : string;
  lineno : N;
  funcName : string;
  message : string
}.

(** [record.__dict__[key]] rendered by [str]. *)
Definition record_field (r : LogRecord) (key : string) : option string :=
  if bool_decide (key = "levelname") then Some (levelname r)
  else if bool_decide (key = "asctime") then Some (asctime r)
  else if bool_decide (key = "lineno") then Some (pretty (lineno r))
  else if bool_decide (key = "funcName") then Some (funcName r)
  else if bool_decide (key = "message") then Some (message r)
  else None.

Inductive FmtState :=
| FText
| FPercent
| FKey (acc : string)
| FConv (key : string).

(** The [%] operator of Python on a format string and a mapping, for the
    conversions [%(key)s] and [%%]; [None] stands for the exception raised
    on any other conversion, on an unknown key or on an incomplete format. *)
Fixpoint percent_format (st : FmtState) (fields : string -> option string)
    (fmt : string) : option string :=
  match fmt with
  | EmptyString => match st with FText => Some EmptyString | _ => None end
  | String c rest =>
      match st with
      | FText =>
          if bool_decide (c = "%"%char) then percent_format FPercent fields rest
          else String c <$> percent_format FText fields rest
      | FPercent =>
          if bool_decide (c = "("%char) then percent_format (FKey "") fields rest
          else if bool_decide (c = "%"%char)
               then String "%"%char <$> percent_format FText fields rest
               else None
      | FKey acc =>
          if bool_decide (c = ")"%char) then percent_format (FConv acc) fields rest
          else percent_format (FKey (acc ++ String c "")) fields rest
      | FConv key =>
          if bool_decide (c = "s"%char)
          then v ← fields key; String.append v <$> percent_format FText fields rest
          else None
      end
  end.

(** [Formatter.formatMessage(record)] for the [%] style. *)
Definition formatMessage (fmt : string) (r : LogRecord) : option string :=
  percent_format FText (record_field r) fmt.

Fixpoint percent_free (s : string) : bool :=
  match s with
  | EmptyString => true
  | String c rest => negb (bool_decide (c = "%"%char)) && percent_free rest
  end.

Fixpoint paren_free (s : string) : bool :=
  match s with
  | EmptyString => true
  | String c rest => negb (bool_decide (c = ")"%char)) && paren_free rest
  end.

(** The line that the format of [initialize_logger] renders for a record. *)
Definition log_line (session_id : string) (r : LogRecord) : string :=
  "[" ++ levelname r ++ "] " ++ asctime r ++ " line " ++ pretty (lineno r)
    ++ ", in " ++ funcName r ++ ", session_id=" ++ session_id ++ ": " ++ message r.

(** ** Well-formed configuration *)

(** Modelled from the spec: the values of [constants.py] (the tool names and
    [AI_AGENT_MAX_ITERATIONS]) are not part of the analysed sources.  The
    specification's invariant on the agent controller requires that each tool
    name is unique and that the iteration bound is positive. *)
Definition constants_wf (ct : Constants) : Prop :=
  NoDup [SEARCH_COMPANY_INFO_TOOL_NAME ct; SEARCH_SERVICE_INFO_TOOL_NAME ct;
         SEARCH_CUSTOMER_COMMUNICATION_INFO_TOOL_NAME ct;
         SEARCH_WEB_INFO_TOOL_NAME ct; SEARCH_ALL_DATA_TOOL_NAME ct]
  /\ 0 < AI_AGENT_MAX_ITERATIONS ct.

(** ** The agent controller *)

(** The configuration that [initialize_agent] binds into the executor. *)
Record Controller := mkController {
  c_tools : list Tool;
  c_max_iterations : Z;
  c_early_stopping_method : string;
  c_handle_parsing_errors : bool
}.

Definition controller_of (v : value) : option Controller :=
  match v with
  | VAgentExecutor _ tl _ mx es hp => Some (mkController tl mx es hp)
  | _ => None
  end.

(** [st.session_state.agent_executor], if it is an agent executor. *)
Definition agent_executor (w : World) : option Controller :=
  w_session w !! "agent_executor" ≫= controller_of.

Module AgentLoop.

(** Modelled from the spec: what the language model's output parses to (a
    tool call, a final answer or a parse error); the agent library that
    produces it is not part of the analysed sources. *)
Inductive Decision :=
| Invoke (name input : string)
| Answer (text : string)
| Malformed (raw : string).

(** Modelled from the spec: the states of the controller's state machine,
    with a fault state for a turn that ends with an error. *)
Inductive Phase :=
| THINKING
| ACTING (tool : Tool) (input : string)
| OBSERVING (observation : string)
| ANSWERING (answer : string)
| FAULT (reason : string).

(** Modelled from the spec: one user turn in progress, with the phase, the
    iteration counter, the observations fed back so far and the tool
    invocations made so far. *)
Record Turn := mkTurn {
  phase : Phase;
  iterations : Z;
  context : list string;
  invocations : list (Tool * string)
}.

(** Modelled from the spec: the external collaborators of the loop, namely
    the language model deciding on the query and the observations, the forced
    final-answer generation, and the functions behind the tools. *)
Record Collaborators := mkCollaborators {
  decide_next : string -> list string -> Decision;
  generate_final : string -> list string -> string;
  call : Callable -> string -> string
}.

(** Modelled from the spec: a tool call is valid when its name is that of a
    registered tool. *)
Definition find_tool (c : Controller) (name : string) : option Tool :=
  List.find (fun t => bool_decide (tool_name t = name)) (c_tools c).

(** Modelled from the spec: the synthetic observation that describes a
    parse failure. *)
Definition parse_failure_observation (raw : string) : string :=
  "Invalid or incomplete response: " ++ raw.

(** Modelled from the spec: the agent loop itself belongs to the agent
    library and is not part of the analysed sources, which only configure it.
    This is the state machine of the specification: [THINKING] is the initial
    state; once the iteration counter reaches [max_iterations] the early
    stopping policy decides ("generate" forces a best-effort final answer,
    anything else ends the turn with a fault); otherwise the model's output is
    parsed: a final answer ends the turn, a valid tool call (a registered tool
    name and an input) moves to [ACTING], and an output that does not parse as
    a valid tool call is fed back as a synthetic observation, consuming one
    iteration, when parsing errors are handled, and is a fault otherwise.
    [ACTING] invokes the tool synchronously and moves to [OBSERVING];
    [OBSERVING] appends the observation to the context, increments the
    counter and returns to [THINKING]. *)
Definition step (c : Controller) (ex : Collaborators) (query : string) (t : Turn) : Turn :=
  match phase t with
  | THINKING =>
      if bool_decide (c_max_iterations c <= iterations t) then
        if bool_decide (c_early_stopping_method c = "generate")
        then mkTurn (ANSWERING (generate_final ex query (context t)))
               (iterations t) (context t) (invocations t)
        else mkTurn (FAULT "iteration limit reached")
               (iterations t) (context t) (invocations t)
      else
        let malformed raw :=
          if c_handle_parsing_errors c
          then mkTurn THINKING (iterations t + 1)
                 (context t ++ [parse_failure_observation raw]) (invocations t)
          else mkTurn (FAULT "output parsing error")
                 (iterations t) (context t) (invocations t) in
        match decide_next ex query (context t) with
        | Answer text => mkTurn (ANSWERING text) (iterations t) (context t) (invocations t)
        | Invoke name input =>
            match find_tool c name with
            | Some tool => mkTurn (ACTING tool input) (iterations t) (context t) (invocations t)
            | None => malformed name
            end
        | Malformed raw => malformed raw
        end
  | ACTING tool input =>
      mkTurn (OBSERVING (call ex (tool_func tool) input))
        (iterations t) (context t) (invocations t ++ [(tool, input)])
  | OBSERVING observation =>
      mkTurn THINKING (iterations t + 1) (context t ++ [observation]) (invocations t)
  | ANSWERING _ | FAULT _ => t
  end.

(** Modelled from the spec: a turn starts in [THINKING] with the counter at
    zero. *)
Definition start : Turn := mkTurn THINKING 0 [] [].

(** Modelled from the spec: the loop, as [fuel] steps of the machine. *)

Fixpoint run (c : Controller) (ex : Collaborators) (query : string)
    (fuel : nat) (t : Turn) : Turn :=
  match fuel with
  | O => t
  | S n => run c ex query n (step c ex query t)
  end.

(** Modelled from the spec: steps that always suffice for one turn, three
    per iteration and one to answer. *)
Definition enough_steps (c : Controller) : nat :=
  S (3 * Z.to_nat (c_max_iterations c)).

(** Modelled from the spec: one user turn, run to its end. *)
Definition run_turn (c : Controller) (ex : Collaborators) (query : string) : Turn :=
  run c ex query (enough_steps c) start.

Definition is_answer (t : Turn) : bool :=
  match phase t with ANSWERING _ => true | _ => false end.

Definition is_fault (t : Turn) : bool :=
  match phase t with FAULT _ => true | _ => false end.

End AgentLoop.

(** ** Closed forms of the worlds that [initialize_logger] leaves *)

(** After [os.makedirs] and [logging.getLogger]. *)
Definition after_makedirs (ct : Constants) (w : World) : World :=
  set_logger (Some (the_logger w)) (set_dirs (fun d => {[ LOG_DIR_PATH ct ]} ∪ d) w).

(** After the log file has been opened as well. *)
Definition after_open (ct : Constants) (w : World) : World :=
  set_files (fun f => {[ os_path_join (LOG_DIR_PATH ct) (LOG_FILE ct) ]} ∪ f)
    (after_makedirs ct w).

(** The handler that [initialize_logger] attaches for a session id. *)
Definition log_handler (ct : Constants) (session_id : string) : Handler :=
  {| h_filename := os_path_join (LOG_DIR_PATH ct) (LOG_FILE ct);
     h_when := "D"; h_interval := 86400; h_backupCount := 0;
     h_encoding := "utf8"; h_formatter := Some (log_format session_id) |}.

(** After the handler has been attached. *)
Definition after_attach (ct : Constants) (session_id : string) (w : World) : World :=
  set_logger (Some {| lg_level := INFO;
                      lg_handlers := lg_handlers (the_logger w) ++ [log_handler ct session_id];
                      lg_propagate := lg_propagate (the_logger w) |})
    (after_open ct w).

(** The events that every call of [initialize_logger] starts with. *)
Definition logger_prologue (ct : Constants) (b : bool) : list Event :=
  [Enter "initialize_logger"; EvMakedirs (LOG_DIR_PATH ct);
   EvGetLogger (LOGGER_NAME ct); EvHasHandlers b].

(** ** Closed forms for [initialize_agent_executor] *)

(** The world after [logging.getLogger(LOGGER_NAME)]. *)
Definition register_logger (w : World) : World :=
  set_logger (Some (the_logger w)) w.

(** The executor that [initialize_agent] returns. *)
Definition built_executor (ct : Constants) : value :=
  VAgentExecutor (VChatOpenAI (MODEL ct) (TEMPERATURE ct) true)
    (tools ct search_run) ZERO_SHOT_REACT_DESCRIPTION
    (AI_AGENT_MAX_ITERATIONS ct) "generate" true.

(** The store after the seven assignments of [initialize_agent_executor]. *)
Definition agent_session (ct : Constants) (s : gmap string value) : gmap string value :=
  <["agent_executor" := built_executor ct]>
  (<["rag_chain" := VRagChain (DB_ALL_PATH ct)]>
  (<["company_doc_chain" := VRagChain (DB_COMPANY_PATH ct)]>
  (<["service_doc_chain" := VRagChain (DB_SERVICE_PATH ct)]>
  (<["customer_doc_chain" := VRagChain (DB_CUSTOMER_PATH ct)]>
  (<["llm" := VChatOpenAI (MODEL ct) (TEMPERATURE ct) true]>
  (<["enc" := VEncoding (ENCODING_KIND ct)]> s)))))).

Definition agent_events (ct : Constants) : list Event :=
  [Enter "initialize_agent_executor"; EvGetLogger (LOGGER_NAME ct);
   EvGetEncoding (ENCODING_KIND ct); EvSetAttr "enc"; EvChatOpenAI; EvSetAttr "llm";
   EvCreateRagChain (DB_CUSTOMER_PATH ct); EvSetAttr "customer_doc_chain";
   EvCreateRagChain (DB_SERVICE_PATH ct); EvSetAttr "service_doc_chain";
   EvCreateRagChain (DB_COMPANY_PATH ct); EvSetAttr "company_doc_chain";
   EvCreateRagChain (DB_ALL_PATH ct); EvSetAttr "rag_chain";
   EvSerpAPIWrapper; EvGetAttr "llm"; EvInitializeAgent; EvSetAttr "agent_executor"].

(** ** Initialised worlds *)

(** Every guard of the four steps is satisfied and the log directory and the
    registered logger are in place. *)
Definition initialized (ct : Constants) (w : World) : Prop :=
  is_Some (w_session w !! "messages") /\
  is_Some (w_session w !! "session_id") /\
  is_Some (w_session w !! "agent_executor") /\
  LOG_DIR_PATH ct ∈ w_dirs w /\
  is_Some (w_logger w) /\
  has_handlers w = true.

(** The store only gains keys. *)
Definition session_grows (s s' : gmap string value) : Prop :=
  forall k, is_Some (s !! k) -> is_Some (s' !! k).

(** The entry events of a trace, in order. *)
Fixpoint entries (tr : list Event) : list string :=
  match tr with
  | [] => []
  | Enter fn :: rest => fn :: entries rest
  | _ :: rest => entries rest
  end.

(** For every formatter built in a trace, the functions entered before it
    (after those already [seen]) and the format string it was given. *)
Fixpoint formatter_contexts (seen : list string) (tr : list Event)
    : list (list string * string) :=
  match tr with
  | [] => []
  | Enter fn :: rest => formatter_contexts (seen ++ [fn]) rest
  | EvFormatter fmt :: rest => (seen, fmt) :: formatter_contexts seen rest
  | _ :: rest => formatter_contexts seen rest
  end.

(** The number of [addHandler] calls in a trace. *)
Fixpoint added_handlers (tr : list Event) : nat :=
  match tr with
  | [] => O
  | EvAddHandler :: rest => S (added_handlers rest)
  | _ :: rest => added_handlers rest
  end.

(** What no step of the initialisation undoes: keys of the store, existing
    directories, the registration of the logger and a configured logger
    chain. *)
Record grows (w w' : World) : Prop := mkGrows {
  grows_session : session_grows (w_session w) (w_session w');
  grows_dirs : w_dirs w ⊆ w_dirs w';
  grows_logger : is_Some (w_logger w) -> is_Some (w_logger w');
  grows_handlers : has_handlers w = true -> has_handlers w' = true
}.

(** ** Invariants of the agent loop *)

(** The controller that [initialize_agent_executor] configures. *)
Definition built_controller (ct : Constants) : Controller :=
  mkController (tools ct search_run) (AI_AGENT_MAX_ITERATIONS ct) "generate" true.

(** The tool invocations made so far are covered by the iteration counter,
    and the counter by the bound. *)
Definition bounded (c : Controller) (t : AgentLoop.Turn) : Prop :=
  let k := Z.of_nat (length (AgentLoop.invocations t)) in
  match AgentLoop.phase t with
  | AgentLoop.THINKING =>
      k <= AgentLoop.iterations t /\ AgentLoop.iterations t <= c_max_iterations c
  | AgentLoop.ACTING _ _ =>
      k <= AgentLoop.iterations t /\ AgentLoop.iterations t < c_max_iterations c
  | AgentLoop.OBSERVING _ =>
      k <= AgentLoop.iterations t + 1 /\ AgentLoop.iterations t < c_max_iterations c
  | AgentLoop.ANSWERING _ | AgentLoop.FAULT _ => k <= c_max_iterations c
  end.

(** A tool is only in flight below the bound, and no turn is in fault. *)
Definition in_range (c : Controller) (t : AgentLoop.Turn) : Prop :=
  match AgentLoop.phase t with
  | AgentLoop.ACTING _ _ | AgentLoop.OBSERVING _ =>
      AgentLoop.iterations t < c_max_iterations c
  | AgentLoop.FAULT _ => False
  | _ => True
  end.

(** An upper bound on the steps a turn still takes. *)
Definition steps_left (c : Controller) (t : AgentLoop.Turn) : Z :=
  let d := Z.max 0 (c_max_iterations c - AgentLoop.iterations t) in
  match AgentLoop.phase t with
  | AgentLoop.THINKING => 3 * d + 1
  | AgentLoop.ACTING _ _ => 3 * d
  | AgentLoop.OBSERVING _ => 3 * d - 1
  | AgentLoop.ANSWERING _ | AgentLoop.FAULT _ => 0
  end.

(** ** Sample inputs *)

Definition sample_constants : Constants :=
  mkConstants "./logs" "ApplicationLog" "application.log" "cl100k_base" "gpt-4o-mini"
    (1 # 2) "./.db_customer" "./.db_service" "./.db_company" "./.db_all"
    "search_company_info_tool" "search_service_info_tool"
    "search_customer_communication_info_tool" "search_web_tool"
    "search_all_data_tool" 5.

Definition sample_runtime : Runtime :=
  mkRuntime (fun _ => "3f2b8c1d9e4a4f6b8a7c5d2e1f0a9b8c") (fun _ => "<object>").

(** A process that has just started: empty session, nothing on disk, the
    logger not yet registered and a root logger without handlers. *)
Definition fresh_world : World := mkWorld ∅ ∅ ∅ None [root_logger] 0.

(** A session that already holds its id, in a process whose logger is not
    configured yet. *)
Definition session_with_id : gmap string value :=
  {[ "session_id" := VStr "3f2b8c1d9e4a4f6b8a7c5d2e1f0a9b8c" ]}.

Definition world_with_id : World := mkWorld session_with_id ∅ ∅ None [root_logger] 0.

(** A process whose root logger already has a handler. *)
Definition console_handler : Handler :=
  {| h_filename := "<stderr>"; h_when := ""; h_interval := 0; h_backupCount := 0;
     h_encoding := "utf8"; h_formatter := None |}.

Definition world_root_configured : World :=
  mkWorld session_with_id ∅ ∅ None
    [{| lg_level := WARNING; lg_handlers := [console_handler]; lg_propagate := true |}] 0.

(** Collaborators whose model never produces a parseable output. *)
Definition babbling : AgentLoop.Collaborators :=
  AgentLoop.mkCollaborators (fun _ _ => AgentLoop.Malformed "???")
    (fun _ _ => "best effort") (fun _ q => q).

(** Collaborators whose model always asks for the web search tool. *)
Definition searching : AgentLoop.Collaborators :=
  AgentLoop.mkCollaborators (fun q _ => AgentLoop.Invoke "search_web_tool" q)
    (fun _ _ => "best effort") (fun _ q => q).

(** ** Further vocabulary for the initialisation steps *)

(** The keys that [initialize_agent_executor] writes. *)
Definition agent_keys : list string :=
  ["enc"; "llm"; "customer_doc_chain"; "service_doc_chain"; "company_doc_chain";
   "rag_chain"; "agent_executor"].

(** Every key that [initialize] can write. *)
Definition written_keys : list string :=
  (session_state_keys ++ "session_id" :: agent_keys)%list.

(** The database paths for which a trace builds a retrieval chain, in
    order. *)
Fixpoint chains_built (tr : list Event) : list string :=
  match tr with
  | [] => []
  | EvCreateRagChain db_path :: rest => db_path :: chains_built rest
  | _ :: rest => chains_built rest
  end.

(** The session-state keys that a trace reads, in order. *)
Fixpoint keys_read (tr : list Event) : list string :=
  match tr with
  | [] => []
  | EvGetAttr key :: rest => key :: keys_read rest
  | _ :: rest => keys_read rest
  end.

(** Lower-case hexadecimal text, as [uuid4().hex] produces it. *)
Definition hex_digit (c : ascii) : bool :=
  bool_decide (c ∈ ["0"; "1"; "2"; "3"; "4"; "5"; "6"; "7"; "8"; "9";
                    "a"; "b"; "c"; "d"; "e"; "f"]%char).

Fixpoint all_hex (s : string) : bool :=
  match s with
  | EmptyString => true
  | String c rest => hex_digit c && all_hex rest
  end.

(** ** Running programs symbolically *)

(** Unfolds the monad and the library calls, leaving the operations on the
    session map and on the sets of paths folded. *)
Ltac run_step :=
  cbv beta iota zeta delta
    [initialize initialize_session_state initialize_session_id initialize_logger
     initialize_agent_executor
     mbind M_bind bind mret M_ret ret raise emit gets modify result final trace
     st_contains st_setattr st_getattr uuid4 os_makedirs getLogger hasHandlers
     TimedRotatingFileHandler Formatter setFormatter setLevel addHandler
     get_encoding ChatOpenAI create_rag_chain SerpAPIWrapper initialize_agent
     negb app].

Ltac run_py :=
  run_step;
  try (change (when_seconds "D") with (Some 86400); run_step;
       change (86400 * 1) with 86400).

(** The same on a world given by its fields. *)
Ltac run_world :=
  run_py;
  cbv beta iota zeta delta
    [has_handlers the_logger after_attach after_open after_makedirs
     w_session w_dirs w_files w_logger w_ancestors w_entropy
     default from_option id
     set_session set_dirs set_files set_logger set_entropy] in *.

Lemma initialize_session_state_absent w :
  w_session w !! "messages" = None ->
  initialize_session_state w =
    mkOutcome (inr tt) (set_session fresh_session_state w)
      (Enter "initialize_session_state" :: map EvSetAttr session_state_keys).
Proof.
  intros Hm. run_py. rewrite Hm.
  rewrite bool_decide_false by (intros [? ?]; discriminate).
  reflexivity.
Qed.

Lemma initialize_session_state_present w :
  is_Some (w_session w !! "messages") ->
  initialize_session_state w = mkOutcome (inr tt) w [Enter "initialize_session_state"].
Proof.
  intros Hm. run_py. rewrite bool_decide_true by assumption. reflexivity.
Qed.

Section InitializeFacts.

Variable ct : Constants.
Variable rt : Runtime.

Lemma initialize_session_id_absent w :
  w_session w !! "session_id" = None ->
  initialize_session_id rt w =
    mkOutcome (inr tt)
      (set_session (insert "session_id" (VStr (uuid4_hex rt (w_entropy w))))
         (set_entropy (S (w_entropy w)) w))
      [Enter "initialize_session_id"; EvUuid4; EvSetAttr "session_id"].
Proof.
  intros Hm. run_py. rewrite Hm.
  rewrite bool_decide_false by (intros [? ?]; discriminate).
  reflexivity.
Qed.

Lemma initialize_session_id_present w :
  is_Some (w_session w !! "session_id") ->
  initialize_session_id rt w = mkOutcome (inr tt) w [Enter "initialize_session_id"].
Proof.
  intros Hm. run_py. rewrite bool_decide_true by assumption. reflexivity.
Qed.

Lemma has_handlers_after_makedirs w :
  has_handlers (after_makedirs ct w) = has_handlers w.
Proof. destruct w as [s d f [lg|] anc n]; reflexivity. Qed.

Lemma initialize_logger_configured w :
  has_handlers w = true ->
  initialize_logger ct rt w =
    mkOutcome (inr tt) (after_makedirs ct w) (logger_prologue ct true).
Proof.
  intros Hh. destruct w as [s d f [lg|] anc n]; run_world; rewrite Hh; reflexivity.
Qed.

Lemma initialize_logger_attach w v :
  has_handlers w = false ->
  w_session w !! "session_id" = Some v ->
  initialize_logger ct rt w =
    mkOutcome (inr tt) (after_attach ct (py_str rt v) w)
      (logger_prologue ct false ++
       [EvOpenHandler (os_path_join (LOG_DIR_PATH ct) (LOG_FILE ct));
        EvGetAttr "session_id"; EvFormatter (log_format (py_str rt v));
        EvSetFormatter; EvSetLevel INFO; EvAddHandler]).
Proof.
  intros Hh Hs. destruct w as [s d f [lg|] anc n]; run_world;
    rewrite Hh, Hs; reflexivity.
Qed.

Lemma initialize_logger_no_session_id w :
  has_handlers w = false ->
  w_session w !! "session_id" = None ->
  initialize_logger ct rt w =
    mkOutcome (inl (AttributeError "session_id")) (after_open ct w)
      (logger_prologue ct false ++
       [EvOpenHandler (os_path_join (LOG_DIR_PATH ct) (LOG_FILE ct));
        EvGetAttr "session_id"]).
Proof.
  intros Hh Hs. destruct w as [s d f [lg|] anc n]; run_world;
    rewrite Hh, Hs; reflexivity.
Qed.

Lemma initialize_agent_executor_present w :
  is_Some (w_session w !! "agent_executor") ->
  initialize_agent_executor ct w =
    mkOutcome (inr tt) (register_logger w)
      [Enter "initialize_agent_executor"; EvGetLogger (LOGGER_NAME ct)].
Proof.
  intros Hs. destruct w as [s d f [lg|] anc n]; run_world;
    rewrite bool_decide_true by assumption; reflexivity.
Qed.

Lemma initialize_agent_executor_absent w :
  w_session w !! "agent_executor" = None ->
  initialize_agent_executor ct w =
    mkOutcome (inr tt) (set_session (agent_session ct) (register_logger w))
      (agent_events ct).
Proof.
  intros Hs. destruct w as [s d f [lg|] anc n]; run_world;
    rewrite Hs, bool_decide_false by (intros [? ?]; discriminate);
    cbv beta iota;
    rewrite !lookup_insert_ne by discriminate;
    rewrite lookup_insert_eq; reflexivity.
Qed.

(** *** Sequencing *)

(** *** What each step leaves *)

Lemma insert_is_Some (s : gmap string value) k v j :
  is_Some (s !! j) -> is_Some (<[k := v]> s !! j).
Proof.
  intros H. destruct (decide (k = j)) as [->|Hne].
  - rewrite lookup_insert_eq. eauto.
  - rewrite lookup_insert_ne by assumption. assumption.
Qed.

Lemma grows_refl w : grows w w.
Proof. split; [intros k H; exact H | reflexivity | tauto | tauto]. Qed.

Lemma grows_trans w1 w2 w3 : grows w1 w2 -> grows w2 w3 -> grows w1 w3.
Proof.
  intros [s1 d1 l1 h1] [s2 d2 l2 h2]. split.
  - intros k H. apply s2, s1, H.
  - etrans; eassumption.
  - tauto.
  - tauto.
Qed.

Lemma session_state_result w : result (initialize_session_state w) = inr tt.
Proof.
  destruct (w_session w !! "messages") eqn:E.
  - rewrite initialize_session_state_present by (rewrite E; eauto). reflexivity.
  - rewrite initialize_session_state_absent by assumption. reflexivity.
Qed.

Lemma session_state_grows w : grows w (final (initialize_session_state w)).
Proof.
  destruct (w_session w !! "messages") eqn:E.
  - rewrite initialize_session_state_present by (rewrite E; eauto). apply grows_refl.
  - rewrite initialize_session_state_absent by assumption.
    destruct w as [s d f l anc n]. split; cbn; try tauto; try reflexivity.
    intros k H. unfold fresh_session_state. repeat apply insert_is_Some. exact H.
Qed.

Lemma session_state_guard w :
  is_Some (w_session (final (initialize_session_state w)) !! "messages").
Proof.
  destruct (w_session w !! "messages") eqn:E.
  - rewrite initialize_session_state_present by (rewrite E; eauto).
    cbn. rewrite E. eauto.
  - rewrite initialize_session_state_absent by assumption.
    destruct w; cbn. unfold fresh_session_state.
    rewrite !lookup_insert_ne by discriminate. rewrite lookup_insert_eq. eauto.
Qed.

Lemma session_id_result w : result (initialize_session_id rt w) = inr tt.
Proof.
  destruct (w_session w !! "session_id") eqn:E.
  - rewrite initialize_session_id_present by (rewrite E; eauto). reflexivity.
  - rewrite initialize_session_id_absent by assumption. reflexivity.
Qed.

Lemma session_id_grows w : grows w (final (initialize_session_id rt w)).
Proof.
  destruct (w_session w !! "session_id") eqn:E.
  - rewrite initialize_session_id_present by (rewrite E; eauto). apply grows_refl.
  - rewrite initialize_session_id_absent by assumption.
    destruct w as [s d f l anc n]. split; cbn; try tauto; try reflexivity.
    intros k H. apply insert_is_Some, H.
Qed.

Lemma session_id_guard w :
  is_Some (w_session (final (initialize_session_id rt w)) !! "session_id").
Proof.
  destruct (w_session w !! "session_id") eqn:E.
  - rewrite initialize_session_id_present by (rewrite E; eauto). cbn. rewrite E. eauto.
  - rewrite initialize_session_id_absent by assumption.
    destruct w; cbn. rewrite lookup_insert_eq. eauto.
Qed.

Lemma logger_result w :
  is_Some (w_session w !! "session_id") ->
  result (initialize_logger ct rt w) = inr tt.
Proof.
  intros [v Hv]. destruct (has_handlers w) eqn:Hh.
  - rewrite initialize_logger_configured by assumption. reflexivity.
  - rewrite (initialize_logger_attach w v) by assumption. reflexivity.
Qed.

Lemma chain_has_handlers_attach lg h anc :
  chain_has_handlers
    ({| lg_level := INFO; lg_handlers := lg_handlers lg ++ [h];
        lg_propagate := lg_propagate lg |} :: anc) = true.
Proof. cbn. destruct (lg_handlers lg); reflexivity. Qed.

Lemma logger_grows w : grows w (final (initialize_logger ct rt w)).
Proof.
  destruct (has_handlers w) eqn:Hh.
  - rewrite initialize_logger_configured by assumption.
    destruct w as [s d f [lg|] anc n]; split; cbn; eauto; try set_solver.
    all: intros k H; exact H.
  - destruct (w_session w !! "session_id") as [v|] eqn:Hs.
    + rewrite (initialize_logger_attach w v) by assumption.
      destruct w as [s d f [lg|] anc n]; split; cbn; eauto; try set_solver;
        try (intros k H; exact H); intros _; apply chain_has_handlers_attach.
    + rewrite initialize_logger_no_session_id by assumption.
      destruct w as [s d f [lg|] anc n]; split; cbn; eauto; try set_solver.
      all: intros k H; exact H.
Qed.

Lemma logger_guard w :
  is_Some (w_session w !! "session_id") ->
  let w' := final (initialize_logger ct rt w) in
  LOG_DIR_PATH ct ∈ w_dirs w' /\ is_Some (w_logger w') /\ has_handlers w' = true.
Proof.
  intros [v Hv]. destruct (has_handlers w) eqn:Hh.
  - rewrite initialize_logger_configured by assumption.
    destruct w as [s d f [lg|] anc n]; cbn; repeat split; eauto; set_solver.
  - rewrite (initialize_logger_attach w v) by assumption.
    destruct w as [s d f [lg|] anc n]; cbn; repeat split; eauto; try set_solver;
      apply chain_has_handlers_attach.
Qed.

Lemma agent_executor_result w : result (initialize_agent_executor ct w) = inr tt.
Proof.
  destruct (w_session w !! "agent_executor") eqn:E.
  - rewrite initialize_agent_executor_present by (rewrite E; eauto). reflexivity.
  - rewrite initialize_agent_executor_absent by assumption. reflexivity.
Qed.

Lemma agent_executor_grows w : grows w (final (initialize_agent_executor ct w)).
Proof.
  destruct (w_session w !! "agent_executor") eqn:E.
  - rewrite initialize_agent_executor_present by (rewrite E; eauto).
    destruct w as [s d f [lg|] anc n]; split; cbn; eauto; try set_solver.
    all: intros k H; exact H.
  - rewrite initialize_agent_executor_absent by assumption.
    destruct w as [s d f [lg|] anc n]; split; cbn; eauto; try set_solver.
    all: intros k H; unfold agent_session; repeat apply insert_is_Some; exact H.
Qed.

Lemma agent_executor_guard w :
  is_Some (w_session (final (initialize_agent_executor ct w)) !! "agent_executor").
Proof.
  destruct (w_session w !! "agent_executor") eqn:E.
  - rewrite initialize_agent_executor_present by (rewrite E; eauto).
    destruct w; cbn in *. rewrite E. eauto.
  - rewrite initialize_agent_executor_absent by assumption.
    destruct w; cbn. unfold agent_session. rewrite lookup_insert_eq. eauto.
Qed.

(** *** The whole sequence *)

Lemma seq_result {B} (m : M unit) (k : M B) w :
  result (m w) = inr tt -> result ((m;; k) w) = result (k (final (m w))).
Proof. intros H. unfold mbind, M_bind, bind. rewrite H. reflexivity. Qed.

Lemma seq_final {B} (m : M unit) (k : M B) w :
  result (m w) = inr tt -> final ((m;; k) w) = final (k (final (m w))).
Proof. intros H. unfold mbind, M_bind, bind. rewrite H. reflexivity. Qed.

Lemma seq_trace {B} (m : M unit) (k : M B) w :
  result (m w) = inr tt -> trace ((m;; k) w) = (trace (m w) ++ trace (k (final (m w))))%list.
Proof. intros H. unfold mbind, M_bind, bind. rewrite H. reflexivity. Qed.

Lemma outcome_ext {A} (o : Outcome A) r w tr :
  result o = r -> final o = w -> trace o = tr -> o = mkOutcome r w tr.
Proof. destruct o; cbn; intros; subst; reflexivity. Qed.

(** The worlds between the steps of [initialize]. *)
Lemma initialize_result w : result (initialize ct rt w) = inr tt.
Proof.
  unfold initialize.
  rewrite seq_result by apply session_state_result.
  rewrite seq_result by apply session_id_result.
  rewrite seq_result by apply logger_result, session_id_guard.
  apply agent_executor_result.
Qed.

Lemma initialize_final w :
  final (initialize ct rt w) =
    final (initialize_agent_executor ct
      (final (initialize_logger ct rt
        (final (initialize_session_id rt
          (final (initialize_session_state w))))))).
Proof.
  unfold initialize.
  rewrite seq_final by apply session_state_result.
  rewrite seq_final by apply session_id_result.
  rewrite seq_final by apply logger_result, session_id_guard.
  reflexivity.
Qed.

Lemma initialize_trace w :
  trace (initialize ct rt w) =
    (trace (initialize_session_state w) ++
     trace (initialize_session_id rt (final (initialize_session_state w))) ++
     trace (initialize_logger ct rt
       (final (initialize_session_id rt (final (initialize_session_state w))))) ++
     trace (initialize_agent_executor ct
       (final (initialize_logger ct rt
         (final (initialize_session_id rt
           (final (initialize_session_state w))))))))%list.
Proof.
  unfold initialize.
  rewrite seq_trace by apply session_state_result.
  rewrite seq_trace by apply session_id_result.
  rewrite seq_trace by apply logger_result, session_id_guard.
  reflexivity.
Qed.

Lemma initialize_grows w : grows w (final (initialize ct rt w)).
Proof.
  rewrite initialize_final.
  eapply grows_trans; [apply session_state_grows|].
  eapply grows_trans; [apply session_id_grows|].
  eapply grows_trans; [apply logger_grows|].
  apply agent_executor_grows.
Qed.

Lemma initialize_initialized w : initialized ct (final (initialize ct rt w)).
Proof.
  rewrite initialize_final.
  pose proof (session_state_guard w) as G1.
  pose proof (session_id_guard (final (initialize_session_state w))) as G2.
  pose proof (logger_guard _ G2) as (G3d & G3l & G3h).
  pose proof (session_id_grows (final (initialize_session_state w))) as [S12 _ _ _].
  pose proof (logger_grows
    (final (initialize_session_id rt (final (initialize_session_state w)))))
    as [S23 _ _ _].
  pose proof (agent_executor_grows
    (final (initialize_logger ct rt
      (final (initialize_session_id rt (final (initialize_session_state w)))))))
    as [S34 D34 L34 H34].
  pose proof (agent_executor_guard
    (final (initialize_logger ct rt
      (final (initialize_session_id rt (final (initialize_session_state w)))))))
    as G4.
  repeat split.
  - apply S34, S23, S12, G1.
  - apply S34, S23, G2.
  - exact G4.
  - apply D34, G3d.
  - apply L34, G3l.
  - apply H34, G3h.
Qed.

(** *** Re-invocation on an initialised world *)

Lemma after_makedirs_initialized w : initialized ct w -> after_makedirs ct w = w.
Proof.
  intros (_ & _ & _ & Hd & [lg Hl] & _).
  destruct w as [s d f l anc n]; cbn [w_dirs w_logger] in *. subst l.
  unfold after_makedirs, set_logger, set_dirs, the_logger; cbn.
  f_equal. apply subseteq_union_1_L, singleton_subseteq_l, Hd.
Qed.

Lemma register_logger_initialized w : initialized ct w -> register_logger w = w.
Proof.
  intros (_ & _ & _ & _ & [lg Hl] & _).
  destruct w as [s d f l anc n]; cbn [w_logger] in *. subst l. reflexivity.
Qed.

Lemma initialize_session_state_noop w :
  initialized ct w ->
  initialize_session_state w = mkOutcome (inr tt) w [Enter "initialize_session_state"].
Proof. intros (H & _). apply initialize_session_state_present, H. Qed.

Lemma initialize_session_id_noop w :
  initialized ct w ->
  initialize_session_id rt w = mkOutcome (inr tt) w [Enter "initialize_session_id"].
Proof. intros (_ & H & _). apply initialize_session_id_present, H. Qed.

Lemma initialize_logger_noop w :
  initialized ct w ->
  initialize_logger ct rt w = mkOutcome (inr tt) w (logger_prologue ct true).
Proof.
  intros H. pose proof H as (_ & _ & _ & _ & _ & Hh).
  rewrite initialize_logger_configured by exact Hh.
  rewrite after_makedirs_initialized by exact H. reflexivity.
Qed.

Lemma initialize_agent_executor_noop w :
  initialized ct w ->
  initialize_agent_executor ct w =
    mkOutcome (inr tt) w [Enter "initialize_agent_executor"; EvGetLogger (LOGGER_NAME ct)].
Proof.
  intros H. pose proof H as (_ & _ & Ha & _).
  rewrite initialize_agent_executor_present by exact Ha.
  rewrite register_logger_initialized by exact H. reflexivity.
Qed.

Lemma initialize_noop w :
  initialized ct w -> final (initialize ct rt w) = w /\ result (initialize ct rt w) = inr tt.
Proof.
  intros H. split; [|apply initialize_result].
  rewrite initialize_final.
  assert (E1 : final (initialize_session_state w) = w)
    by (rewrite (initialize_session_state_noop w H); reflexivity).
  rewrite E1.
  assert (E2 : final (initialize_session_id rt w) = w)
    by (rewrite (initialize_session_id_noop w H); reflexivity).
  rewrite E2.
  assert (E3 : final (initialize_logger ct rt w) = w)
    by (rewrite (initialize_logger_noop w H); reflexivity).
  rewrite E3.
  rewrite (initialize_agent_executor_noop w H). reflexivity.
Qed.

(** ** The session-state step *)

(** C10: [initialize_session_state] guards all its writes on the single key
    "messages".  When the key is absent it sets [messages] and [chat_history]
    to empty lists, [total_tokens] to 0, the four feedback flags to [False]
    and [dissatisfied_reason] to the empty string, and touches nothing else;
    when the key is present it leaves the whole world unchanged, whatever
    other keys are missing. *)
Theorem initialize_session_state_spec w :
  (w_session w !! "messages" = None ->
   let o := initialize_session_state w in
   result o = inr tt /\
   w_session (final o) !! "messages" = Some (VList []) /\
   w_session (final o) !! "chat_history" = Some (VList []) /\
   w_session (final o) !! "total_tokens" = Some (VInt 0) /\
   w_session (final o) !! "feedback_yes_flg" = Some (VBool false) /\
   w_session (final o) !! "feedback_no_flg" = Some (VBool false) /\
   w_session (final o) !! "answer_flg" = Some (VBool false) /\
   w_session (final o) !! "feedback_no_reason_send_flg" = Some (VBool false) /\
   w_session (final o) !! "dissatisfied_reason" = Some (VStr "") /\
   (forall k, k ∉ session_state_keys ->
      w_session (final o) !! k = w_session w !! k) /\
   final o = set_session (fun _ => w_session (final o)) w) /\
  (is_Some (w_session w !! "messages") ->
   let o := initialize_session_state w in
   result o = inr tt /\ final o = w).
Proof.
  split.
  - intros Hm o. subst o. rewrite initialize_session_state_absent by exact Hm.
    destruct w as [s d f l anc n].
    cbn [result final w_session set_session].
    unfold fresh_session_state.
    repeat split;
      try (rewrite ?lookup_insert_eq, ?(lookup_insert_ne _ _ _ _) by discriminate;
           rewrite ?lookup_insert_eq; reflexivity).
    intros k Hk.
    assert (Hne : forall x, x ∈ session_state_keys -> x <> k)
      by (intros x Hx ->; exact (Hk Hx)).
    rewrite !lookup_insert_ne
      by (apply Hne; unfold session_state_keys; repeat constructor).
    reflexivity.
  - intros Hm o. subst o. rewrite initialize_session_state_present by exact Hm.
    split; reflexivity.
Qed.

(** *** Traces *)

Lemma entries_app a b : entries (a ++ b) = (entries a ++ entries b)%list.
Proof.
  induction a as [|e a IH]; [reflexivity|].
  destruct e; cbn [entries app]; rewrite IH; reflexivity.
Qed.

Lemma formatter_contexts_app a : forall seen b,
  formatter_contexts seen (a ++ b) =
    (formatter_contexts seen a ++ formatter_contexts (seen ++ entries a) b)%list.
Proof.
  induction a as [|e a IH]; intros seen b.
  - cbn. rewrite app_nil_r. reflexivity.
  - destruct e; cbn [formatter_contexts entries app]; rewrite IH;
      rewrite <- ?app_assoc; reflexivity.
Qed.

Lemma formatter_contexts_split pre fmt post : forall seen,
  (seen ++ entries pre, fmt)%list ∈
    formatter_contexts seen (pre ++ EvFormatter fmt :: post).
Proof.
  intros seen. rewrite formatter_contexts_app. apply elem_of_app. right.
  cbn [formatter_contexts]. apply elem_of_cons. left. reflexivity.
Qed.

Lemma added_handlers_app a b :
  added_handlers (a ++ b) = (added_handlers a + added_handlers b)%nat.
Proof.
  induction a as [|e a IH]; [reflexivity|].
  destruct e; cbn [added_handlers app]; rewrite IH; reflexivity.
Qed.

Lemma session_state_trace w :
  entries (trace (initialize_session_state w)) = ["initialize_session_state"] /\
  forall seen, formatter_contexts seen (trace (initialize_session_state w)) = [].
Proof.
  destruct (w_session w !! "messages") eqn:E.
  - rewrite initialize_session_state_present by (rewrite E; eauto).
    split; reflexivity.
  - rewrite initialize_session_state_absent by assumption. split; reflexivity.
Qed.

Lemma session_id_trace w :
  entries (trace (initialize_session_id rt w)) = ["initialize_session_id"] /\
  forall seen, formatter_contexts seen (trace (initialize_session_id rt w)) = [].
Proof.
  destruct (w_session w !! "session_id") eqn:E.
  - rewrite initialize_session_id_present by (rewrite E; eauto).
    split; reflexivity.
  - rewrite initialize_session_id_absent by assumption. split; reflexivity.
Qed.

Lemma logger_trace w v :
  w_session w !! "session_id" = Some v ->
  entries (trace (initialize_logger ct rt w)) = ["initialize_logger"] /\
  forall seen x, x ∈ formatter_contexts seen (trace (initialize_logger ct rt w)) ->
    x = ((seen ++ ["initialize_logger"])%list, log_format (py_str rt v)).
Proof.
  intros Hv. destruct (has_handlers w) eqn:Hh.
  - rewrite initialize_logger_configured by assumption.
    split; [reflexivity|]. intros seen x Hx. cbn in Hx. inversion Hx.
  - rewrite (initialize_logger_attach w v) by assumption.
    split; [reflexivity|]. intros seen x Hx.
    cbn [trace logger_prologue app formatter_contexts] in Hx.
    apply list_elem_of_singleton in Hx. exact Hx.
Qed.

Lemma agent_executor_trace w :
  entries (trace (initialize_agent_executor ct w)) = ["initialize_agent_executor"] /\
  forall seen, formatter_contexts seen (trace (initialize_agent_executor ct w)) = [].
Proof.
  destruct (w_session w !! "agent_executor") eqn:E.
  - rewrite initialize_agent_executor_present by (rewrite E; eauto).
    split; reflexivity.
  - rewrite initialize_agent_executor_absent by assumption. split; reflexivity.
Qed.

(** The later steps leave the session id alone. *)
Lemma logger_session w :
  w_session (final (initialize_logger ct rt w)) = w_session w.
Proof.
  destruct (has_handlers w) eqn:Hh.
  - rewrite initialize_logger_configured by assumption. destruct w; reflexivity.
  - destruct (w_session w !! "session_id") as [v|] eqn:Hs.
    + rewrite (initialize_logger_attach w v) by assumption. destruct w; reflexivity.
    + rewrite initialize_logger_no_session_id by assumption. destruct w; reflexivity.
Qed.

Lemma agent_executor_session_id w :
  w_session (final (initialize_agent_executor ct w)) !! "session_id" =
  w_session w !! "session_id".
Proof.
  destruct (w_session w !! "agent_executor") eqn:E.
  - rewrite initialize_agent_executor_present by (rewrite E; eauto).
    destruct w; reflexivity.
  - rewrite initialize_agent_executor_absent by assumption.
    destruct w; cbn [final w_session set_session register_logger set_logger].
    unfold agent_session. rewrite !lookup_insert_ne by discriminate. reflexivity.
Qed.

(** ** Order of the steps *)

(** C3: [initialize] enters its four steps in the fixed order session state,
    session id, logger, agent executor.  The session id is in the session
    state when the logger step starts, and whenever the run builds the
    logger's format string it does so inside the logger step, after the
    session-id step, embedding that id. *)
Theorem initialize_order w :
  let o := initialize ct rt w in
  let w2 := final (initialize_session_id rt (final (initialize_session_state w))) in
  result o = inr tt /\
  entries (trace o) =
    ["initialize_session_state"; "initialize_session_id"; "initialize_logger";
     "initialize_agent_executor"] /\
  exists v,
    w_session w2 !! "session_id" = Some v /\
    w_session (final o) !! "session_id" = Some v /\
    forall pre fmt post,
      trace o = (pre ++ EvFormatter fmt :: post)%list ->
      entries pre =
        ["initialize_session_state"; "initialize_session_id"; "initialize_logger"] /\
      fmt = log_format (py_str rt v).
Proof.
  intros o w2. subst o.
  destruct (session_id_guard (final (initialize_session_state w))) as [v Hv].
  fold w2 in Hv.
  destruct (session_state_trace w) as [E1 F1].
  destruct (session_id_trace (final (initialize_session_state w))) as [E2 F2].
  destruct (logger_trace w2 v Hv) as [E3 F3].
  destruct (agent_executor_trace (final (initialize_logger ct rt w2))) as [E4 F4].
  split; [apply initialize_result|]. split.
  - rewrite initialize_trace. fold w2. rewrite !entries_app, E1, E2, E3, E4.
    reflexivity.
  - exists v. split; [exact Hv|]. split.
    + rewrite initialize_final. fold w2.
      rewrite agent_executor_session_id, logger_session. exact Hv.
    + intros pre fmt post Hsplit.
      pose proof (formatter_contexts_split pre fmt post []) as Hin.
      rewrite <- Hsplit, initialize_trace in Hin. fold w2 in Hin.
      rewrite !formatter_contexts_app, F1, F2, F4, E1, E2 in Hin.
      rewrite app_nil_r in Hin. cbn [app] in Hin.
      apply F3 in Hin. inversion Hin. split; reflexivity.
Qed.

(** *** The [%] operator *)

Lemma append_empty_r (s : string) : s ++ "" = s.
Proof.
  induction s as [|c s IH]; [reflexivity|].
  change (String c (s ++ "") = String c s). rewrite IH. reflexivity.
Qed.

Lemma append_assoc (a b c : string) : (a ++ b) ++ c = a ++ (b ++ c).
Proof.
  induction a as [|x a IH]; [reflexivity|].
  change (String x ((a ++ b) ++ c) = String x (a ++ (b ++ c))). rewrite IH. reflexivity.
Qed.

Lemma percent_format_text fields text : forall rest,
  percent_free text = true ->
  percent_format FText fields (text ++ rest) =
    String.append text <$> percent_format FText fields rest.
Proof.
  induction text as [|c text IH]; intros rest Hfree.
  - change ("" ++ rest) with rest. destruct (percent_format FText fields rest); reflexivity.
  - cbn [percent_free] in Hfree. apply andb_prop in Hfree as [Hc Hrest].
    change (String c text ++ rest) with (String c (text ++ rest)).
    cbn [percent_format]. destruct (bool_decide (c = "%"%char)); [discriminate Hc|].
    rewrite IH by exact Hrest.
    destruct (percent_format FText fields rest); reflexivity.
Qed.

Lemma percent_format_key fields key : forall acc rest,
  paren_free key = true ->
  percent_format (FKey acc) fields (key ++ String ")" rest) =
    percent_format (FConv (acc ++ key)) fields rest.
Proof.
  induction key as [|c key IH]; intros acc rest Hfree.
  - change ("" ++ String ")" rest) with (String ")" rest).
    rewrite append_empty_r. reflexivity.
  - cbn [paren_free] in Hfree. apply andb_prop in Hfree as [Hc Hrest].
    change (String c key ++ String ")" rest) with (String c (key ++ String ")" rest)).
    cbn [percent_format]. destruct (bool_decide (c = ")"%char)); [discriminate Hc|].
    rewrite IH by exact Hrest.
    rewrite append_assoc. reflexivity.
Qed.

Lemma percent_format_field fields key rest :
  paren_free key = true ->
  percent_format FText fields ("%(" ++ key ++ ")s" ++ rest) =
    fields key ≫= fun v => String.append v <$> percent_format FText fields rest.
Proof.
  intros Hfree.
  change ("%(" ++ key ++ ")s" ++ rest)
    with (String "%" (String "(" (key ++ String ")" (String "s" rest)))).
  cbn [percent_format].
  rewrite (bool_decide_true ("%"%char = "%"%char)) by reflexivity.
  rewrite (bool_decide_true ("("%char = "("%char)) by reflexivity.
  rewrite percent_format_key by exact Hfree.
  cbn [percent_format].
  rewrite (bool_decide_true ("s"%char = "s"%char)) by reflexivity.
  reflexivity.
Qed.

Lemma log_format_renders session_id r :
  percent_free session_id = true ->
  formatMessage (log_format session_id) r = Some (log_line session_id r).
Proof.
  intros Hfree. unfold formatMessage, log_format.
  change ("[%(levelname)s] %(asctime)s line %(lineno)s, in %(funcName)s, session_id="
            ++ session_id ++ ": %(message)s")
    with ("[" ++ "%(" ++ "levelname" ++ ")s" ++ "] " ++ "%(" ++ "asctime" ++ ")s"
          ++ " line " ++ "%(" ++ "lineno" ++ ")s" ++ ", in "
          ++ "%(" ++ "funcName" ++ ")s" ++ ", session_id=" ++ session_id
          ++ ": " ++ "%(" ++ "message" ++ ")s" ++ "").
  rewrite (percent_format_text _ "[") by reflexivity.
  rewrite (percent_format_field _ "levelname") by reflexivity.
  rewrite (percent_format_text _ "] ") by reflexivity.
  rewrite (percent_format_field _ "asctime") by reflexivity.
  rewrite (percent_format_text _ " line ") by reflexivity.
  rewrite (percent_format_field _ "lineno") by reflexivity.
  rewrite (percent_format_text _ ", in ") by reflexivity.
  rewrite (percent_format_field _ "funcName") by reflexivity.
  rewrite (percent_format_text _ ", session_id=") by reflexivity.
  rewrite (percent_format_text _ session_id) by exact Hfree.
  rewrite (percent_format_text _ ": ") by reflexivity.
  rewrite (percent_format_field _ "message") by reflexivity.
  change (record_field r "levelname") with (Some (levelname r)).
  change (record_field r "asctime") with (Some (asctime r)).
  change (record_field r "lineno") with (Some (pretty (lineno r))).
  change (record_field r "funcName") with (Some (funcName r)).
  change (record_field r "message") with (Some (message r)).
  cbn [percent_format fmap option_fmap option_map mbind option_bind].
  rewrite append_empty_r. reflexivity.
Qed.

(** ** Idempotence of the initialisation *)

(** C1: for every world, running [initialize] twice leaves the same state as
    running it once (session state, file system, logger and entropy), and on
    the state that one run leaves each of the four steps returns normally
    without changing anything: its guard key or handler already exists. *)
Theorem initialize_idempotent w :
  let once := initialize ct rt w in
  let twice := (initialize ct rt;; initialize ct rt) w in
  result once = inr tt /\
  result twice = inr tt /\
  final twice = final once /\
  initialize_session_state (final once) =
    mkOutcome (inr tt) (final once) [Enter "initialize_session_state"] /\
  initialize_session_id rt (final once) =
    mkOutcome (inr tt) (final once) [Enter "initialize_session_id"] /\
  initialize_logger ct rt (final once) =
    mkOutcome (inr tt) (final once) (logger_prologue ct true) /\
  initialize_agent_executor ct (final once) =
    mkOutcome (inr tt) (final once)
      [Enter "initialize_agent_executor"; EvGetLogger (LOGGER_NAME ct)].
Proof.
  intros once twice.
  pose proof (initialize_initialized w) as Hi. fold once in Hi.
  pose proof (initialize_result w) as Hr. fold once in Hr.
  destruct (initialize_noop (final once) Hi) as [Hf Hr2].
  repeat split.
  - exact Hr.
  - subst twice. rewrite seq_result by exact Hr. exact Hr2.
  - subst twice. rewrite seq_final by exact Hr. exact Hf.
  - apply initialize_session_state_noop, Hi.
  - apply initialize_session_id_noop, Hi.
  - apply initialize_logger_noop, Hi.
  - apply initialize_agent_executor_noop, Hi.
Qed.

(** ** Frame of the logger step *)

(** C9: every call of [initialize_logger] creates the log directory before
    it consults the handler guard, also when it then returns early; on that
    early-return path neither the level nor the handlers of the logger
    change (nor the session state, the log files or the entropy). *)
Theorem initialize_logger_frame w :
  let o := initialize_logger ct rt w in
  LOG_DIR_PATH ct ∈ w_dirs (final o) /\
  (exists b rest,
     trace o = (logger_prologue ct b ++ rest)%list /\ b = has_handlers w) /\
  (has_handlers w = true ->
     result o = inr tt /\
     trace o = logger_prologue ct true /\
     w_dirs (final o) = {[ LOG_DIR_PATH ct ]} ∪ w_dirs w /\
     lg_level (the_logger (final o)) = lg_level (the_logger w) /\
     lg_handlers (the_logger (final o)) = lg_handlers (the_logger w) /\
     w_session (final o) = w_session w /\
     w_files (final o) = w_files w /\
     w_ancestors (final o) = w_ancestors w /\
     w_entropy (final o) = w_entropy w).
Proof.
  intros o. subst o. destruct (has_handlers w) eqn:Hh.
  - rewrite initialize_logger_configured by exact Hh.
    destruct w as [s d f [lg|] anc n]; cbn [final trace result];
      unfold after_makedirs, set_logger, set_dirs, the_logger;
      cbn [w_dirs w_session w_files w_logger w_ancestors w_entropy default
           from_option id];
      (split; [apply elem_of_union_l, elem_of_singleton; reflexivity|]);
      (split; [exists true, []; split; reflexivity|]);
      intros _; repeat split; reflexivity.
  - destruct (w_session w !! "session_id") as [v|] eqn:Hs.
    + rewrite (initialize_logger_attach w v) by assumption.
      destruct w as [s d f [lg|] anc n]; cbn [final trace result];
        unfold after_attach, after_open, after_makedirs, set_logger, set_files,
          set_dirs, the_logger;
        cbn [w_dirs w_session w_files w_logger w_ancestors w_entropy];
        (split; [apply elem_of_union_l, elem_of_singleton; reflexivity|]);
        (split; [eexists false, _; split; reflexivity|]);
        intros H; discriminate H.
    + rewrite initialize_logger_no_session_id by assumption.
      destruct w as [s d f [lg|] anc n]; cbn [final trace result];
        unfold after_open, after_makedirs, set_logger, set_files,
          set_dirs, the_logger;
        cbn [w_dirs w_session w_files w_logger w_ancestors w_entropy];
        (split; [apply elem_of_union_l, elem_of_singleton; reflexivity|]);
        (split; [eexists false, _; split; reflexivity|]);
        intros H; discriminate H.
Qed.

(** ** The logging sink *)

Lemma no_handlers_own w : has_handlers w = false -> lg_handlers (the_logger w) = [].
Proof.
  unfold has_handlers. cbn [chain_has_handlers].
  destruct (lg_handlers (the_logger w)); [reflexivity | discriminate].
Qed.

Lemma after_attach_handlers w sid :
  has_handlers w = false ->
  lg_handlers (the_logger (after_attach ct sid w)) = [log_handler ct sid].
Proof.
  intros Hh. apply no_handlers_own in Hh.
  destruct w as [s d f l anc n]. unfold after_attach, the_logger in *.
  cbn [set_logger w_logger default from_option id lg_handlers] in *.
  rewrite Hh. reflexivity.
Qed.

(** C8 (amended): the sink that [initialize_logger] configures is one handler
    on one file, [LOG_FILE] in [LOG_DIR_PATH], rotated at an interval of one
    day ([when="D"]: each rollover falls 86400 seconds after the reference
    time, wherever in the day that is, not on a day boundary), and every line
    it formats carries the severity, the timestamp, the line number, the
    function name, the session id and the message. *)
Theorem logging_sink w v :
  has_handlers w = false ->
  w_session w !! "session_id" = Some v ->
  percent_free (py_str rt v) = true ->
  let o := initialize_logger ct rt w in
  result o = inr tt /\
  exists h fmt,
    lg_handlers (the_logger (final o)) = [h] /\
    h_filename h = os_path_join (LOG_DIR_PATH ct) (LOG_FILE ct) /\
    w_files (final o) = {[ h_filename h ]} ∪ w_files w /\
    h_when h = "D" /\
    h_interval h = 86400 /\
    (forall t, computeRollover h t = t + 86400) /\
    h_formatter h = Some fmt /\
    fmt = log_format (py_str rt v) /\
    forall r, formatMessage fmt r =
      Some ("[" ++ levelname r ++ "] " ++ asctime r ++ " line " ++ pretty (lineno r)
            ++ ", in " ++ funcName r ++ ", session_id=" ++ py_str rt v ++ ": "
            ++ message r).
Proof.
  intros Hh Hv Hfree o. subst o.
  rewrite (initialize_logger_attach w v) by assumption.
  cbn [result final]. split; [reflexivity|].
  exists (log_handler ct (py_str rt v)), (log_format (py_str rt v)).
  split; [apply after_attach_handlers, Hh|].
  split; [reflexivity|].
  split; [destruct w; reflexivity|].
  split; [reflexivity|]. split; [reflexivity|]. split; [intros t; reflexivity|].
  split; [reflexivity|]. split; [reflexivity|].
  intros r. apply log_format_renders, Hfree.
Qed.

(** ** Calls of the logger step from several sessions *)

Lemma has_handlers_set_session f w : has_handlers (set_session f w) = has_handlers w.
Proof. destruct w; reflexivity. Qed.

Lemma the_logger_after_makedirs w : the_logger (after_makedirs ct w) = the_logger w.
Proof. destruct w as [s d f [lg|] anc n]; reflexivity. Qed.

Lemma has_handlers_after_attach sid w : has_handlers (after_attach ct sid w) = true.
Proof.
  destruct w as [s d f l anc n]. unfold has_handlers, after_attach, the_logger.
  cbn [set_logger w_logger w_ancestors after_open set_files after_makedirs set_dirs
       default from_option id].
  apply chain_has_handlers_attach.
Qed.

Lemma modify_result f w : result (modify f w) = inr tt.
Proof. reflexivity. Qed.

Lemma calls_configured sessions : forall w,
  has_handlers w = true ->
  let o := initialize_logger_calls ct rt sessions w in
  result o = inr tt /\
  lg_handlers (the_logger (final o)) = lg_handlers (the_logger w) /\
  added_handlers (trace o) = O.
Proof.
  induction sessions as [|s rest IH]; intros w Hh o; subst o.
  - repeat split; reflexivity.
  - cbn [initialize_logger_calls].
    assert (Hh' : has_handlers (set_session (fun _ => s) w) = true)
      by (rewrite has_handlers_set_session; exact Hh).
    assert (R1 : result (initialize_logger ct rt (final (modify (set_session (fun _ => s)) w)))
                 = inr tt)
      by (cbn [modify final]; rewrite initialize_logger_configured by exact Hh';
          reflexivity).
    assert (F1 : final (initialize_logger ct rt (final (modify (set_session (fun _ => s)) w)))
                 = after_makedirs ct (set_session (fun _ => s) w))
      by (cbn [modify final]; rewrite initialize_logger_configured by exact Hh';
          reflexivity).
    assert (T1 : trace (initialize_logger ct rt (final (modify (set_session (fun _ => s)) w)))
                 = logger_prologue ct true)
      by (cbn [modify final]; rewrite initialize_logger_configured by exact Hh';
          reflexivity).
    assert (Hh2 : has_handlers (after_makedirs ct (set_session (fun _ => s) w)) = true)
      by (rewrite has_handlers_after_makedirs; exact Hh').
    destruct (IH _ Hh2) as (R & H & A).
    rewrite seq_result, seq_result, seq_final, seq_final, seq_trace, seq_trace
      by (first [apply modify_result | exact R1]).
    rewrite F1, T1. repeat split.
    + exact R.
    + rewrite H, the_logger_after_makedirs. destruct w; reflexivity.
    + rewrite !added_handlers_app, A. reflexivity.
Qed.

(** C2: however many calls of [initialize_logger] a process makes (n >= 1,
    each from some session, the first one holding a session id), starting
    with no handler on the logger's chain, the shared logger ends with
    exactly one handler: the [TimedRotatingFileHandler] that the first call
    attached; [addHandler] runs once in the whole run. *)
Theorem one_handler_per_process (n : nat) sessions s0 v w :
  (1 <= n)%nat ->
  length sessions = n ->
  head sessions = Some s0 ->
  s0 !! "session_id" = Some v ->
  has_handlers w = false ->
  let o := initialize_logger_calls ct rt sessions w in
  result o = inr tt /\
  lg_handlers (the_logger (final o)) = [log_handler ct (py_str rt v)] /\
  length (lg_handlers (the_logger (final o))) = 1%nat /\
  added_handlers (trace o) = 1%nat.
Proof.
  intros Hn Hlen Hhead Hv Hh o. subst o.
  destruct sessions as [|s rest]; [discriminate Hhead|].
  cbn [head] in Hhead. injection Hhead as ->.
  cbn [initialize_logger_calls].
  assert (Hh' : has_handlers (set_session (fun _ => s0) w) = false)
    by (rewrite has_handlers_set_session; exact Hh).
  assert (Hv' : w_session (set_session (fun _ => s0) w) !! "session_id" = Some v)
    by (destruct w; exact Hv).
  pose proof (initialize_logger_attach _ v Hh' Hv') as E.
  assert (R1 : result (initialize_logger ct rt (final (modify (set_session (fun _ => s0)) w)))
               = inr tt)
    by (cbn [modify final]; rewrite E; reflexivity).
  assert (F1 : final (initialize_logger ct rt (final (modify (set_session (fun _ => s0)) w)))
               = after_attach ct (py_str rt v) (set_session (fun _ => s0) w))
    by (cbn [modify final]; rewrite E; reflexivity).
  assert (T1 : added_handlers
                 (trace (initialize_logger ct rt
                           (final (modify (set_session (fun _ => s0)) w)))) = 1%nat)
    by (cbn [modify final]; rewrite E; reflexivity).
  destruct (calls_configured rest _
              (has_handlers_after_attach (py_str rt v) (set_session (fun _ => s0) w)))
    as (R & H & A).
  rewrite seq_result, seq_result, seq_final, seq_final, seq_trace, seq_trace
    by (first [apply modify_result | exact R1]).
  rewrite F1, !added_handlers_app, T1, A, H.
  rewrite after_attach_handlers by exact Hh'.
  repeat split; try reflexivity. exact R.
Qed.

(** ** The agent executor that initialisation builds *)

Lemma session_state_other w k :
  k ∉ session_state_keys ->
  w_session (final (initialize_session_state w)) !! k = w_session w !! k.
Proof.
  intros Hk. destruct (w_session w !! "messages") eqn:E.
  - rewrite initialize_session_state_present by (rewrite E; eauto). reflexivity.
  - rewrite initialize_session_state_absent by assumption.
    destruct w as [s d f l anc n]. cbn [final w_session set_session].
    unfold fresh_session_state.
    assert (Hne : forall x, x ∈ session_state_keys -> x <> k)
      by (intros x Hx ->; exact (Hk Hx)).
    rewrite !lookup_insert_ne
      by (apply Hne; unfold session_state_keys; repeat constructor).
    reflexivity.
Qed.

Lemma session_id_other w k :
  k <> "session_id" ->
  w_session (final (initialize_session_id rt w)) !! k = w_session w !! k.
Proof.
  intros Hk. destruct (w_session w !! "session_id") eqn:E.
  - rewrite initialize_session_id_present by (rewrite E; eauto). reflexivity.
  - rewrite initialize_session_id_absent by assumption.
    destruct w as [s d f l anc n]. cbn [final w_session set_session set_entropy].
    rewrite lookup_insert_ne by (intros H; apply Hk; symmetry; exact H).
    reflexivity.
Qed.

Lemma initialize_builds w :
  w_session w !! "agent_executor" = None ->
  w_session (final (initialize ct rt w)) !! "agent_executor" = Some (built_executor ct).
Proof.
  intros Ha. rewrite initialize_final.
  rewrite initialize_agent_executor_absent.
  - match goal with
    | |- w_session (final (mkOutcome _ (set_session _ (register_logger ?x)) _)) !! _ = _ =>
        destruct x
    end.
    cbn [final w_session set_session register_logger set_logger].
    unfold agent_session. apply lookup_insert_eq.
  - rewrite logger_session, session_id_other by discriminate.
    rewrite session_state_other; [exact Ha|].
    unfold session_state_keys. intros H.
    repeat (apply elem_of_cons in H as [H|H]; [discriminate H|]).
    inversion H.
Qed.

Lemma initialize_controller w :
  w_session w !! "agent_executor" = None ->
  agent_executor (final (initialize ct rt w)) = Some (built_controller ct).
Proof.
  intros Ha. unfold agent_executor. rewrite initialize_builds by exact Ha. reflexivity.
Qed.

(** C4: after initialisation of a session that had no agent executor, the
    executor holds exactly five tools (so the tool set is not empty); under
    the specification's assumption on the configuration constants the tool
    names are pairwise distinct and [max_iterations] is positive; and running
    the initialisation again leaves the executor as it is. *)
Theorem agent_executor_invariant w :
  constants_wf ct ->
  w_session w !! "agent_executor" = None ->
  let o := initialize ct rt w in
  exists llm tl ag mx es hp,
    w_session (final o) !! "agent_executor" = Some (VAgentExecutor llm tl ag mx es hp) /\
    length tl = 5%nat /\
    tl <> [] /\
    map tool_name tl =
      [SEARCH_COMPANY_INFO_TOOL_NAME ct; SEARCH_SERVICE_INFO_TOOL_NAME ct;
       SEARCH_CUSTOMER_COMMUNICATION_INFO_TOOL_NAME ct;
       SEARCH_WEB_INFO_TOOL_NAME ct; SEARCH_ALL_DATA_TOOL_NAME ct] /\
    NoDup (map tool_name tl) /\
    mx = AI_AGENT_MAX_ITERATIONS ct /\
    0 < mx /\
    w_session (final (initialize ct rt (final o))) !! "agent_executor" =
      Some (VAgentExecutor llm tl ag mx es hp).
Proof.
  intros [Hnames Hmax] Ha o. subst o.
  exists (VChatOpenAI (MODEL ct) (TEMPERATURE ct) true), (tools ct search_run),
    ZERO_SHOT_REACT_DESCRIPTION, (AI_AGENT_MAX_ITERATIONS ct), "generate", true.
  split; [apply initialize_builds, Ha|].
  split; [reflexivity|]. split; [discriminate|]. split; [reflexivity|].
  split; [exact Hnames|]. split; [reflexivity|]. split; [exact Hmax|].
  destruct (initialize_noop _ (initialize_initialized w)) as [-> _].
  apply initialize_builds, Ha.
Qed.

End InitializeFacts.

(** ** The agent loop under the configured policies *)

Section AgentFacts.

Import AgentLoop.

Variable c : Controller.
Variable ex : Collaborators.
Variable query : string.

Hypothesis early_stopping_generate : c_early_stopping_method c = "generate".
Hypothesis parsing_errors_handled : c_handle_parsing_errors c = true.

(** [step] at a turn given by its fields. *)
Ltac step_cases :=
  unfold step; cbn [phase iterations context invocations];
  rewrite ?early_stopping_generate, ?parsing_errors_handled;
  repeat first
    [ progress cbn [phase iterations context invocations]
    | case_bool_decide
    | match goal with
      | |- context [match decide_next ?e ?q ?x with _ => _ end] =>
          destruct (decide_next e q x)
      | |- context [match find_tool ?a ?b with _ => _ end] =>
          destruct (find_tool a b)
      end ].

Lemma step_bounded t : bounded c t -> bounded c (step c ex query t).
Proof.
  destruct t as [[| tool input | obs | ans | reason] it ctx inv];
    unfold bounded; cbn [phase iterations context invocations]; intros H;
    step_cases; rewrite ?length_app; cbn [length]; lia.
Qed.

Lemma step_in_range t : in_range c t -> in_range c (step c ex query t).
Proof.
  destruct t as [[| tool input | obs | ans | reason] it ctx inv];
    unfold in_range; cbn [phase iterations context invocations]; intros H;
    step_cases; try exact I; try lia; try exact H; congruence.
Qed.

Lemma step_steps_left t :
  in_range c t -> 0 < steps_left c t ->
  steps_left c (step c ex query t) < steps_left c t.
Proof.
  destruct t as [[| tool input | obs | ans | reason] it ctx inv];
    unfold in_range, steps_left; cbn [phase iterations context invocations];
    intros H Hpos; step_cases; lia.
Qed.

Lemma steps_left_zero t :
  in_range c t -> steps_left c t <= 0 -> is_answer t = true.
Proof.
  destruct t as [[| tool input | obs | ans | reason] it ctx inv];
    unfold in_range, steps_left, is_answer; cbn [phase iterations];
    intros H Hz; first [reflexivity | lia | contradiction].
Qed.

Lemma step_answer t : is_answer t = true -> step c ex query t = t.
Proof.
  destruct t as [[| tool input | obs | ans | reason] it ctx inv];
    unfold is_answer; cbn [phase]; intros H; try discriminate H. reflexivity.
Qed.

Lemma run_answer fuel : forall t, is_answer t = true -> run c ex query fuel t = t.
Proof.
  induction fuel as [|fuel IH]; intros t H; [reflexivity|].
  cbn [run]. rewrite step_answer by exact H. apply IH, H.
Qed.

Lemma run_bounded fuel : forall t, bounded c t -> bounded c (run c ex query fuel t).
Proof.
  induction fuel as [|fuel IH]; intros t H; [exact H|].
  cbn [run]. apply IH, step_bounded, H.
Qed.

Lemma run_in_range fuel : forall t, in_range c t -> in_range c (run c ex query fuel t).
Proof.
  induction fuel as [|fuel IH]; intros t H; [exact H|].
  cbn [run]. apply IH, step_in_range, H.
Qed.

Lemma run_terminates fuel : forall t,
  in_range c t -> steps_left c t <= Z.of_nat fuel ->
  is_answer (run c ex query fuel t) = true.
Proof.
  induction fuel as [|fuel IH]; intros t Hr Hs.
  - cbn [run]. apply steps_left_zero; [exact Hr | exact Hs].
  - cbn [run]. destruct (Z.le_gt_cases (steps_left c t) 0) as [Hz|Hpos].
    + assert (Ha : is_answer t = true) by (apply steps_left_zero; assumption).
      rewrite step_answer, run_answer by exact Ha. exact Ha.
    + apply IH; [apply step_in_range, Hr|].
      pose proof (step_steps_left t Hr Hpos). lia.
Qed.

Lemma start_in_range : in_range c start.
Proof. exact I. Qed.

Lemma start_steps_left : steps_left c start <= Z.of_nat (enough_steps c).
Proof. unfold steps_left, start, enough_steps; cbn [phase iterations]. lia. Qed.

Lemma run_turn_answers : is_answer (run_turn c ex query) = true.
Proof. apply run_terminates; [apply start_in_range | apply start_steps_left]. Qed.

Lemma run_never_faults fuel : is_fault (run c ex query fuel start) = false.
Proof.
  pose proof (run_in_range fuel start start_in_range) as H.
  unfold in_range in H. unfold is_fault.
  destruct (phase (run c ex query fuel start)); first [reflexivity | contradiction].
Qed.

Lemma run_invocations_bounded fuel :
  0 <= c_max_iterations c ->
  Z.of_nat (length (invocations (run c ex query fuel start))) <= c_max_iterations c.
Proof.
  intros Hmax.
  assert (H0 : bounded c start) by (unfold bounded, start; cbn; lia).
  pose proof (run_bounded fuel start H0) as H. unfold bounded in H.
  pose proof (run_in_range fuel start start_in_range) as Hr. unfold in_range in Hr.
  destruct (phase (run c ex query fuel start)); lia.
Qed.

Lemma step_exhausted t :
  phase t = THINKING -> c_max_iterations c <= iterations t ->
  step c ex query t =
    mkTurn (ANSWERING (generate_final ex query (context t)))
      (iterations t) (context t) (invocations t).
Proof.
  intros Hp Hmax. unfold step. rewrite Hp, early_stopping_generate.
  rewrite bool_decide_true by exact Hmax. reflexivity.
Qed.

Lemma step_malformed t raw :
  phase t = THINKING -> iterations t < c_max_iterations c ->
  decide_next ex query (context t) = Malformed raw ->
  step c ex query t =
    mkTurn THINKING (iterations t + 1)
      (context t ++ [parse_failure_observation raw]) (invocations t).
Proof.
  intros Hp Hmax Hd. unfold step. rewrite Hp, parsing_errors_handled, Hd.
  rewrite bool_decide_false by lia. reflexivity.
Qed.

Lemma step_unregistered t name input :
  phase t = THINKING -> iterations t < c_max_iterations c ->
  decide_next ex query (context t) = Invoke name input ->
  find_tool c name = None ->
  step c ex query t =
    mkTurn THINKING (iterations t + 1)
      (context t ++ [parse_failure_observation name]) (invocations t).
Proof.
  intros Hp Hmax Hd Hf. unfold step. rewrite Hp, parsing_errors_handled, Hd, Hf.
  rewrite bool_decide_false by lia. reflexivity.
Qed.

End AgentFacts.

(** ** The agent controller that initialisation configures *)

Lemma run_add c ex query a : forall b t,
  AgentLoop.run c ex query (a + b) t =
  AgentLoop.run c ex query b (AgentLoop.run c ex query a t).
Proof.
  induction a as [|a IH]; intros b t; [reflexivity|].
  cbn [Nat.add AgentLoop.run]. apply IH.
Qed.

(** C5: in every user turn the controller that [initialize] configures makes
    at most [max_iterations] tool invocations, at whatever point the turn is
    observed, and the turn has ended with an answer after boundedly many
    steps (three per iteration and one more). *)
Theorem tool_invocations_bounded ct rt w ex query :
  0 <= AI_AGENT_MAX_ITERATIONS ct ->
  w_session w !! "agent_executor" = None ->
  exists c,
    agent_executor (final (initialize ct rt w)) = Some c /\
    c_max_iterations c = AI_AGENT_MAX_ITERATIONS ct /\
    (forall fuel,
       Z.of_nat (length (AgentLoop.invocations (AgentLoop.run c ex query fuel AgentLoop.start)))
         <= c_max_iterations c) /\
    AgentLoop.is_answer (AgentLoop.run_turn c ex query) = true /\
    (forall more,
       AgentLoop.run c ex query (AgentLoop.enough_steps c + more) AgentLoop.start =
       AgentLoop.run_turn c ex query).
Proof.
  intros Hmax Ha. exists (built_controller ct).
  split; [apply initialize_controller, Ha|]. split; [reflexivity|].
  split; [intros fuel; apply run_invocations_bounded; [reflexivity | reflexivity | exact Hmax]|].
  split; [apply run_turn_answers; reflexivity|].
  intros more. rewrite run_add. apply run_answer.
  apply run_turn_answers; reflexivity.
Qed.

(** C6: when the iteration counter has reached [max_iterations], the
    controller that [initialize] configures ends the turn by generating a
    best-effort final answer; no turn ever ends in a fault, and every turn
    ends with an answer. *)
Theorem exhaustion_forces_answer ct rt w ex query :
  w_session w !! "agent_executor" = None ->
  exists c,
    agent_executor (final (initialize ct rt w)) = Some c /\
    c_early_stopping_method c = "generate" /\
    (forall t,
       AgentLoop.phase t = AgentLoop.THINKING ->
       c_max_iterations c <= AgentLoop.iterations t ->
       AgentLoop.step c ex query t =
         AgentLoop.mkTurn
           (AgentLoop.ANSWERING (AgentLoop.generate_final ex query (AgentLoop.context t)))
           (AgentLoop.iterations t) (AgentLoop.context t) (AgentLoop.invocations t)) /\
    (forall fuel,
       AgentLoop.is_fault (AgentLoop.run c ex query fuel AgentLoop.start) = false) /\
    AgentLoop.is_answer (AgentLoop.run_turn c ex query) = true.
Proof.
  intros Ha. exists (built_controller ct).
  split; [apply initialize_controller, Ha|]. split; [reflexivity|].
  split; [intros t Hp Hm; apply step_exhausted; [reflexivity | exact Hp | exact Hm]|].
  split; [intros fuel; apply run_never_faults; reflexivity|].
  apply run_turn_answers; reflexivity.
Qed.

(** C7: when the model's output does not parse as a valid tool call (it is
    malformed, or names a tool that is not registered), the controller that
    [initialize] configures stays in the loop: it returns to [THINKING] with
    an observation describing the failure appended to the context and the
    iteration counter incremented by one, invokes no tool, and does not end
    the turn in a fault. *)
Theorem parse_failure_fed_back ct rt w ex query :
  w_session w !! "agent_executor" = None ->
  exists c,
    agent_executor (final (initialize ct rt w)) = Some c /\
    c_handle_parsing_errors c = true /\
    (forall t raw,
       AgentLoop.phase t = AgentLoop.THINKING ->
       AgentLoop.iterations t < c_max_iterations c ->
       AgentLoop.decide_next ex query (AgentLoop.context t) = AgentLoop.Malformed raw ->
       AgentLoop.step c ex query t =
         AgentLoop.mkTurn AgentLoop.THINKING (AgentLoop.iterations t + 1)
           (AgentLoop.context t ++ [AgentLoop.parse_failure_observation raw])
           (AgentLoop.invocations t)) /\
    (forall t name input,
       AgentLoop.phase t = AgentLoop.THINKING ->
       AgentLoop.iterations t < c_max_iterations c ->
       AgentLoop.decide_next ex query (AgentLoop.context t) = AgentLoop.Invoke name input ->
       AgentLoop.find_tool c name = None ->
       AgentLoop.step c ex query t =
         AgentLoop.mkTurn AgentLoop.THINKING (AgentLoop.iterations t + 1)
           (AgentLoop.context t ++ [AgentLoop.parse_failure_observation name])
           (AgentLoop.invocations t)) /\
    (forall fuel,
       AgentLoop.is_fault (AgentLoop.run c ex query fuel AgentLoop.start) = false).
Proof.
  intros Ha. exists (built_controller ct).
  split; [apply initialize_controller, Ha|]. split; [reflexivity|].
  split; [intros t raw Hp Hm Hd; apply step_malformed;
          [reflexivity | exact Hp | exact Hm | exact Hd]|].
  split; [intros t name input Hp Hm Hd Hf;
          exact (step_unregistered (built_controller ct) ex query eq_refl
                   t name input Hp Hm Hd Hf)|].
  intros fuel. apply run_never_faults; reflexivity.
Qed.

(** ** The theorems at concrete inputs *)

Lemma initialize_session_state_spec_witness :
  w_session fresh_world !! "messages" = None /\
  w_session (final (initialize_session_state fresh_world)) !! "total_tokens"
    = Some (VInt 0) /\
  is_Some (w_session (set_session (insert "messages" (VList [VStr "hi"])) fresh_world)
             !! "messages") /\
  final (initialize_session_state
           (set_session (insert "messages" (VList [VStr "hi"])) fresh_world))
    = set_session (insert "messages" (VList [VStr "hi"])) fresh_world.
Proof.
  assert (H1 : w_session fresh_world !! "messages" = None) by reflexivity.
  assert (H2 : is_Some (w_session (set_session (insert "messages" (VList [VStr "hi"]))
                                     fresh_world) !! "messages"))
    by (exists (VList [VStr "hi"]); vm_compute; reflexivity).
  split; [exact H1|]. split.
  - exact (proj1 (proj2 (proj2 (proj2
      (proj1 (initialize_session_state_spec fresh_world) H1))))).
  - split; [exact H2|].
    exact (proj2 (proj2 (initialize_session_state_spec _) H2)).
Defined.

Lemma one_handler_per_process_witness :
  (1 <= 3)%nat /\
  has_handlers fresh_world = false /\
  session_with_id !! "session_id" = Some (VStr "3f2b8c1d9e4a4f6b8a7c5d2e1f0a9b8c") /\
  lg_handlers (the_logger (final
    (initialize_logger_calls sample_constants sample_runtime
       [session_with_id; ∅; session_with_id] fresh_world)))
    = [log_handler sample_constants "3f2b8c1d9e4a4f6b8a7c5d2e1f0a9b8c"].
Proof.
  assert (H1 : (1 <= 3)%nat) by lia.
  assert (H2 : has_handlers fresh_world = false) by reflexivity.
  assert (H3 : session_with_id !! "session_id"
               = Some (VStr "3f2b8c1d9e4a4f6b8a7c5d2e1f0a9b8c"))
    by (vm_compute; reflexivity).
  split; [exact H1|]. split; [exact H2|]. split; [exact H3|].
  exact (proj1 (proj2
    (one_handler_per_process sample_constants sample_runtime 3
       [session_with_id; ∅; session_with_id] session_with_id
       (VStr "3f2b8c1d9e4a4f6b8a7c5d2e1f0a9b8c") fresh_world
       H1 eq_refl eq_refl H3 H2))).
Defined.

Lemma agent_executor_invariant_witness :
  constants_wf sample_constants /\
  w_session fresh_world !! "agent_executor" = None /\
  exists llm tl ag mx es hp,
    w_session (final (initialize sample_constants sample_runtime fresh_world))
      !! "agent_executor" = Some (VAgentExecutor llm tl ag mx es hp) /\
    length tl = 5%nat /\ NoDup (map tool_name tl) /\ 0 < mx.
Proof.
  assert (H1 : constants_wf sample_constants)
    by (split; [apply (bool_decide_unpack _); vm_compute; exact I | reflexivity]).
  assert (H2 : w_session fresh_world !! "agent_executor" = None) by reflexivity.
  split; [exact H1|]. split; [exact H2|].
  destruct (agent_executor_invariant sample_constants sample_runtime fresh_world
              H1 H2)
    as (llm & tl & ag & mx & es & hp & Hl & Hn & _ & _ & Hd & _ & Hm & _).
  exists llm, tl, ag, mx, es, hp. repeat split; assumption.
Defined.

Lemma tool_invocations_bounded_witness :
  0 <= AI_AGENT_MAX_ITERATIONS sample_constants /\
  w_session fresh_world !! "agent_executor" = None /\
  exists c,
    agent_executor (final (initialize sample_constants sample_runtime fresh_world))
      = Some c /\
    Z.of_nat (length (AgentLoop.invocations (AgentLoop.run_turn c searching "EcoTee")))
      <= 5.
Proof.
  assert (H1 : 0 <= AI_AGENT_MAX_ITERATIONS sample_constants)
    by (vm_compute; discriminate).
  assert (H2 : w_session fresh_world !! "agent_executor" = None) by reflexivity.
  split; [exact H1|]. split; [exact H2|].
  destruct (tool_invocations_bounded sample_constants sample_runtime fresh_world
              searching "EcoTee" H1 H2) as (c & Hc & Hmax & Hb & _).
  exists c. split; [exact Hc|].
  change 5 with (AI_AGENT_MAX_ITERATIONS sample_constants). rewrite <- Hmax.
  apply Hb.
Defined.

Lemma exhaustion_forces_answer_witness :
  w_session fresh_world !! "agent_executor" = None /\
  exists c,
    agent_executor (final (initialize sample_constants sample_runtime fresh_world))
      = Some c /\
    AgentLoop.is_answer (AgentLoop.run_turn c searching "EcoTee") = true.
Proof.
  assert (H : w_session fresh_world !! "agent_executor" = None) by reflexivity.
  split; [exact H|].
  destruct (exhaustion_forces_answer sample_constants sample_runtime fresh_world
              searching "EcoTee" H) as (c & Hc & _ & _ & _ & Ha).
  exists c. split; assumption.
Defined.

Lemma parse_failure_fed_back_witness :
  w_session fresh_world !! "agent_executor" = None /\
  exists c,
    agent_executor (final (initialize sample_constants sample_runtime fresh_world))
      = Some c /\
    AgentLoop.is_fault (AgentLoop.run c babbling "EcoTee" 3 AgentLoop.start) = false.
Proof.
  assert (H : w_session fresh_world !! "agent_executor" = None) by reflexivity.
  split; [exact H|].
  destruct (parse_failure_fed_back sample_constants sample_runtime fresh_world
              babbling "EcoTee" H) as (c & Hc & _ & _ & _ & Hf).
  exists c. split; [exact Hc | apply Hf].
Defined.

Lemma logging_sink_witness :
  has_handlers world_with_id = false /\
  w_session world_with_id !! "session_id"
    = Some (VStr "3f2b8c1d9e4a4f6b8a7c5d2e1f0a9b8c") /\
  percent_free "3f2b8c1d9e4a4f6b8a7c5d2e1f0a9b8c" = true /\
  result (initialize_logger sample_constants sample_runtime world_with_id) = inr tt.
Proof.
  assert (H1 : has_handlers world_with_id = false) by reflexivity.
  assert (H2 : w_session world_with_id !! "session_id"
               = Some (VStr "3f2b8c1d9e4a4f6b8a7c5d2e1f0a9b8c"))
    by (vm_compute; reflexivity).
  assert (H3 : percent_free "3f2b8c1d9e4a4f6b8a7c5d2e1f0a9b8c" = true)
    by (vm_compute; reflexivity).
  split; [exact H1|]. split; [exact H2|]. split; [exact H3|].
  exact (proj1 (logging_sink sample_constants sample_runtime world_with_id
                  (VStr "3f2b8c1d9e4a4f6b8a7c5d2e1f0a9b8c") H1 H2 H3)).
Defined.

(** C8 as stated fails: the handler that [initialize_logger] attaches does
    not rotate on a day boundary.  Created 100 seconds after midnight, it
    rolls over at 86500, one day later to the second and 100 seconds past the
    next midnight; a handler with [when="MIDNIGHT"] would roll over at
    86400. *)
Lemma logging_sink_not_on_day_boundary :
  exists h,
    lg_handlers (the_logger (final
      (initialize_logger sample_constants sample_runtime world_with_id))) = [h] /\
    h_when h = "D" /\
    computeRollover h 100 = 86500 /\
    ~ on_day_boundary (computeRollover h 100) /\
    on_day_boundary
      (computeRollover
         {| h_filename := h_filename h; h_when := "MIDNIGHT";
            h_interval := h_interval h; h_backupCount := h_backupCount h;
            h_encoding := h_encoding h; h_formatter := h_formatter h |} 100).
Proof.
  exists (log_handler sample_constants "3f2b8c1d9e4a4f6b8a7c5d2e1f0a9b8c").
  split.
  - rewrite (initialize_logger_attach sample_constants sample_runtime world_with_id
               (VStr "3f2b8c1d9e4a4f6b8a7c5d2e1f0a9b8c"))
      by (vm_compute; reflexivity).
    reflexivity.
  - split; [reflexivity|]. split; [reflexivity|]. split.
    + unfold on_day_boundary. vm_compute. discriminate.
    + unfold on_day_boundary. vm_compute. reflexivity.
Qed.

(** ** Behaviour at the edges *)

(** A full run from a fresh process. *)
Example initialize_fresh_trace :
  entries (trace (initialize sample_constants sample_runtime fresh_world)) =
    ["initialize_session_state"; "initialize_session_id"; "initialize_logger";
     "initialize_agent_executor"] /\
  w_session (final (initialize sample_constants sample_runtime fresh_world))
    !! "session_id" = Some (VStr "3f2b8c1d9e4a4f6b8a7c5d2e1f0a9b8c") /\
  w_entropy (final (initialize sample_constants sample_runtime fresh_world)) = 1%nat.
Proof. vm_compute. repeat split; reflexivity. Qed.

(** Called before the session id exists, the logger step creates the
    directory and the log file and then raises. *)
Example initialize_logger_needs_session_id :
  let o := initialize_logger sample_constants sample_runtime fresh_world in
  result o = inl (AttributeError "session_id") /\
  lg_handlers (the_logger (final o)) = [] /\
  "./logs" ∈ w_dirs (final o) /\
  "./logs/application.log" ∈ w_files (final o).
Proof.
  intros o. subst o.
  rewrite initialize_logger_no_session_id by reflexivity.
  split; [reflexivity|]. split; [reflexivity|].
  split; apply elem_of_union_l, elem_of_singleton; reflexivity.
Qed.

(** When a parent logger already has a handler, [hasHandlers] answers true
    and the logger step attaches nothing. *)
Example initialize_logger_parent_configured :
  let o := initialize_logger sample_constants sample_runtime world_root_configured in
  result o = inr tt /\ lg_handlers (the_logger (final o)) = [].
Proof.
  intros o. subst o.
  rewrite initialize_logger_configured by reflexivity. split; reflexivity.
Qed.

(** With [when="D"] the rollover falls one day after the reference time, not
    on the next midnight. *)
Example rollover_one_day_later :
  computeRollover (log_handler sample_constants "id") 100 = 86500.
Proof. reflexivity. Qed.

(** The bound on tool invocations is reached by a model that always asks for
    a tool. *)
Example searching_uses_all_iterations :
  let t := AgentLoop.run_turn (built_controller sample_constants) searching "EcoTee" in
  length (AgentLoop.invocations t) = 5%nat /\
  AgentLoop.phase t = AgentLoop.ANSWERING "best effort" /\
  AgentLoop.iterations t = 5.
Proof. vm_compute. repeat split; reflexivity. Qed.

(** A model that never produces a parseable output uses up the iterations
    without a tool invocation and still gets an answer. *)
Example babbling_ends_with_answer :
  let t := AgentLoop.run_turn (built_controller sample_constants) babbling "EcoTee" in
  AgentLoop.invocations t = [] /\
  AgentLoop.phase t = AgentLoop.ANSWERING "best effort" /\
  length (AgentLoop.context t) = 5%nat.
Proof. vm_compute. repeat split; reflexivity. Qed.

(** A rendered log line. *)
Example log_line_rendered :
  formatMessage (log_format "3f2b8c1d9e4a4f6b8a7c5d2e1f0a9b8c")
    (mkLogRecord "INFO" "2025-01-01 09:00:00,000" 42 "main" "started") =
  Some "[INFO] 2025-01-01 09:00:00,000 line 42, in main, session_id=3f2b8c1d9e4a4f6b8a7c5d2e1f0a9b8c: started".
Proof. vm_compute. reflexivity. Qed.

(** ** More on the initialisation steps *)

Section MoreFacts.

Variable ct : Constants.
Variable rt : Runtime.

(** *** What each step leaves alone *)

Lemma session_state_rest w :
  let w' := final (initialize_session_state w) in
  w_dirs w' = w_dirs w /\ w_files w' = w_files w /\ w_logger w' = w_logger w /\
  w_ancestors w' = w_ancestors w /\ w_entropy w' = w_entropy w.
Proof.
  destruct (w_session w !! "messages") eqn:E.
  - rewrite initialize_session_state_present by (rewrite E; eauto).
    repeat split; reflexivity.
  - rewrite initialize_session_state_absent by assumption.
    destruct w; repeat split; reflexivity.
Qed.

Lemma session_id_rest w :
  let w' := final (initialize_session_id rt w) in
  w_dirs w' = w_dirs w /\ w_files w' = w_files w /\ w_logger w' = w_logger w /\
  w_ancestors w' = w_ancestors w.
Proof.
  destruct (w_session w !! "session_id") eqn:E.
  - rewrite initialize_session_id_present by (rewrite E; eauto).
    repeat split; reflexivity.
  - rewrite initialize_session_id_absent by assumption.
    destruct w; repeat split; reflexivity.
Qed.

Lemma logger_rest w :
  let w' := final (initialize_logger ct rt w) in
  w_ancestors w' = w_ancestors w /\ w_entropy w' = w_entropy w.
Proof.
  destruct (has_handlers w) eqn:Hh.
  - rewrite initialize_logger_configured by assumption.
    destruct w; split; reflexivity.
  - destruct (w_session w !! "session_id") as [v|] eqn:Hs.
    + rewrite (initialize_logger_attach ct rt w v) by assumption.
      destruct w; split; reflexivity.
    + rewrite initialize_logger_no_session_id by assumption.
      destruct w; split; reflexivity.
Qed.

Lemma agent_executor_rest w :
  let w' := final (initialize_agent_executor ct w) in
  the_logger w' = the_logger w /\ w_ancestors w' = w_ancestors w /\
  w_dirs w' = w_dirs w /\ w_files w' = w_files w /\ w_entropy w' = w_entropy w.
Proof.
  destruct (w_session w !! "agent_executor") eqn:E.
  - rewrite initialize_agent_executor_present by (rewrite E; eauto).
    destruct w as [s d f [lg|] anc n]; repeat split; reflexivity.
  - rewrite initialize_agent_executor_absent by assumption.
    destruct w as [s d f [lg|] anc n]; repeat split; reflexivity.
Qed.

Lemma agent_executor_other w k :
  k ∉ agent_keys ->
  w_session (final (initialize_agent_executor ct w)) !! k = w_session w !! k.
Proof.
  intros Hk. destruct (w_session w !! "agent_executor") eqn:E.
  - rewrite initialize_agent_executor_present by (rewrite E; eauto).
    destruct w; reflexivity.
  - rewrite initialize_agent_executor_absent by assumption.
    destruct w as [s d f l anc n].
    cbn [final w_session set_session register_logger set_logger].
    unfold agent_session.
    assert (Hne : forall x, x ∈ agent_keys -> x <> k)
      by (intros x Hx ->; exact (Hk Hx)).
    rewrite !lookup_insert_ne by (apply Hne; unfold agent_keys; repeat constructor).
    reflexivity.
Qed.

Lemma has_handlers_same w w' :
  the_logger w' = the_logger w -> w_ancestors w' = w_ancestors w ->
  has_handlers w' = has_handlers w.
Proof. intros Hl Ha. unfold has_handlers. rewrite Hl, Ha. reflexivity. Qed.

Lemma the_logger_same w w' : w_logger w' = w_logger w -> the_logger w' = the_logger w.
Proof. intros H. unfold the_logger. rewrite H. reflexivity. Qed.

(** *** The session-id step *)

(** X1: [initialize_session_id] never replaces an existing session id (of
    whatever type) and then draws nothing from [uuid4]; when the key is
    missing it stores the hex text of exactly one [uuid4] draw.  No other key
    and nothing outside the session state changes. *)
Theorem initialize_session_id_spec w :
  let o := initialize_session_id rt w in
  result o = inr tt /\
  (forall v, w_session w !! "session_id" = Some v -> final o = w) /\
  (w_session w !! "session_id" = None ->
     w_session (final o) !! "session_id" = Some (VStr (uuid4_hex rt (w_entropy w))) /\
     w_entropy (final o) = S (w_entropy w)) /\
  (forall k, k <> "session_id" -> w_session (final o) !! k = w_session w !! k) /\
  w_dirs (final o) = w_dirs w /\ w_files (final o) = w_files w /\
  w_logger (final o) = w_logger w /\ w_ancestors (final o) = w_ancestors w.
Proof.
  intros o. subst o.
  split; [apply session_id_result|]. split.
  { intros v Hv. rewrite initialize_session_id_present by (rewrite Hv; eauto).
    reflexivity. }
  split.
  { intros Hn. rewrite initialize_session_id_absent by exact Hn.
    destruct w; cbn [final w_session w_entropy set_session set_entropy].
    split; [apply lookup_insert_eq | reflexivity]. }
  split; [intros k Hk; apply session_id_other, Hk|].
  apply session_id_rest.
Qed.

(** *** The agent-executor step *)

(** X5: [initialize_agent_executor] guards all its writes on the single key
    "agent_executor".  When the key is missing it (over)writes exactly seven
    keys: the encoding, the language model, one retrieval chain per database
    path and the executor, which holds the very model stored under "llm", the
    five tools, the configured iteration bound, early stopping "generate" and
    parsing-error handling; every other key, the logger's level and handlers,
    the file system and the entropy stay as they are.  When the key is present
    the session state is unchanged, even if the other six keys are missing. *)
Theorem initialize_agent_executor_spec w :
  (w_session w !! "agent_executor" = None ->
   let o := initialize_agent_executor ct w in
   result o = inr tt /\
   w_session (final o) !! "enc" = Some (VEncoding (ENCODING_KIND ct)) /\
   w_session (final o) !! "llm" = Some (VChatOpenAI (MODEL ct) (TEMPERATURE ct) true) /\
   w_session (final o) !! "customer_doc_chain" = Some (VRagChain (DB_CUSTOMER_PATH ct)) /\
   w_session (final o) !! "service_doc_chain" = Some (VRagChain (DB_SERVICE_PATH ct)) /\
   w_session (final o) !! "company_doc_chain" = Some (VRagChain (DB_COMPANY_PATH ct)) /\
   w_session (final o) !! "rag_chain" = Some (VRagChain (DB_ALL_PATH ct)) /\
   (exists llm,
      w_session (final o) !! "llm" = Some llm /\
      w_session (final o) !! "agent_executor" =
        Some (VAgentExecutor llm (tools ct search_run) ZERO_SHOT_REACT_DESCRIPTION
                (AI_AGENT_MAX_ITERATIONS ct) "generate" true)) /\
   (forall k, k ∉ agent_keys -> w_session (final o) !! k = w_session w !! k) /\
   the_logger (final o) = the_logger w /\ w_ancestors (final o) = w_ancestors w /\
   w_dirs (final o) = w_dirs w /\ w_files (final o) = w_files w /\
   w_entropy (final o) = w_entropy w) /\
  (is_Some (w_session w !! "agent_executor") ->
   let o := initialize_agent_executor ct w in
   result o = inr tt /\ w_session (final o) = w_session w /\
   the_logger (final o) = the_logger w /\ w_ancestors (final o) = w_ancestors w /\
   w_dirs (final o) = w_dirs w /\ w_files (final o) = w_files w /\
   w_entropy (final o) = w_entropy w).
Proof.
  split.
  - intros Ha o. subst o.
    pose proof (agent_executor_rest w) as Hrest.
    pose proof (fun k => agent_executor_other w k) as Hother.
    rewrite initialize_agent_executor_absent in * by exact Ha.
    destruct w as [s d f l anc n].
    cbn [result final w_session set_session register_logger set_logger] in *.
    unfold agent_session, built_executor.
    split; [reflexivity|].
    repeat (split; [rewrite !lookup_insert_ne by discriminate;
                    apply lookup_insert_eq|]).
    split.
    { eexists. split.
      - rewrite !lookup_insert_ne by discriminate. apply lookup_insert_eq.
      - apply lookup_insert_eq. }
    split; [exact Hother | exact Hrest].
  - intros Ha o. subst o.
    pose proof (agent_executor_rest w) as Hrest.
    rewrite initialize_agent_executor_present in * by exact Ha.
    split; [reflexivity|]. split; [destruct w; reflexivity | exact Hrest].
Qed.

(** *** Frames of the whole sequence *)

Lemma not_in_written k :
  k ∉ written_keys ->
  (k ∉ session_state_keys) /\ k <> "session_id" /\ (k ∉ agent_keys).
Proof.
  unfold written_keys. intros H. repeat split.
  - intros Hk. apply H, elem_of_app. left. exact Hk.
  - intros ->. apply H, elem_of_app. right. apply elem_of_cons. left. reflexivity.
  - intros Hk. apply H, elem_of_app. right. apply elem_of_cons. right. exact Hk.
Qed.

Lemma conversation_key_apart k :
  k ∈ session_state_keys -> k <> "session_id" /\ (k ∉ agent_keys).
Proof.
  unfold session_state_keys, agent_keys. intros H.
  repeat (apply elem_of_cons in H as [->|H];
          [split; [discriminate|];
           intros H'; repeat (apply elem_of_cons in H' as [H'|H']; [discriminate H'|]);
           inversion H'|]).
  inversion H.
Qed.

(** X7: [initialize] touches no key of the session state outside the sixteen
    it writes (the eight conversation keys, "session_id" and the seven agent
    keys): whatever else a session holds keeps its value. *)
Theorem initialize_frame w k :
  k ∉ written_keys ->
  w_session (final (initialize ct rt w)) !! k = w_session w !! k.
Proof.
  intros Hk. apply not_in_written in Hk as (H1 & H2 & H3).
  rewrite initialize_final.
  rewrite agent_executor_other by exact H3.
  rewrite logger_session.
  rewrite session_id_other by exact H2.
  apply session_state_other, H1.
Qed.

(** X8: once "messages" is in the session state, [initialize] leaves all
    eight conversation keys (messages, chat history, token counter, feedback
    flags and reason) exactly as they are, also when it still has to create
    the session id or the agent executor: a rerun never resets a conversation
    and never fills in a conversation key that is missing. *)
Theorem initialize_keeps_conversation w k :
  is_Some (w_session w !! "messages") ->
  k ∈ session_state_keys ->
  w_session (final (initialize ct rt w)) !! k = w_session w !! k.
Proof.
  intros Hm Hk. apply conversation_key_apart in Hk as [H2 H3].
  rewrite initialize_final.
  rewrite agent_executor_other by exact H3.
  rewrite logger_session.
  rewrite session_id_other by exact H2.
  rewrite initialize_session_state_present by exact Hm. reflexivity.
Qed.

(** X9: [initialize] keeps an existing session id, whatever its value, and
    then consumes no [uuid4] draw; without one it ends with the hex text of
    exactly one draw as the session id. *)
Theorem initialize_session_id_kept w :
  let o := initialize ct rt w in
  (forall v, w_session w !! "session_id" = Some v ->
     w_session (final o) !! "session_id" = Some v /\
     w_entropy (final o) = w_entropy w) /\
  (w_session w !! "session_id" = None ->
     w_session (final o) !! "session_id" = Some (VStr (uuid4_hex rt (w_entropy w))) /\
     w_entropy (final o) = S (w_entropy w)).
Proof.
  intros o. subst o.
  assert (Hs : w_session (final (initialize_session_state w)) !! "session_id"
               = w_session w !! "session_id").
  { apply session_state_other. unfold session_state_keys. intros H.
    repeat (apply elem_of_cons in H as [H|H]; [discriminate H|]). inversion H. }
  destruct (session_state_rest w) as (_ & _ & _ & _ & He1).
  rewrite initialize_final.
  rewrite agent_executor_session_id, logger_session.
  destruct (agent_executor_rest
              (final (initialize_logger ct rt
                 (final (initialize_session_id rt
                    (final (initialize_session_state w)))))))
    as (_ & _ & _ & _ & ->).
  destruct (logger_rest
              (final (initialize_session_id rt (final (initialize_session_state w)))))
    as (_ & ->).
  split.
  - intros v Hv. rewrite <- Hs in Hv.
    rewrite initialize_session_id_present by (rewrite Hv; eauto).
    cbn [final]. split; [exact Hv | exact He1].
  - intros Hn. rewrite <- Hs in Hn.
    rewrite initialize_session_id_absent by exact Hn.
    rewrite He1.
    destruct (final (initialize_session_state w)) as [s d f l anc n].
    cbn [final w_session w_entropy set_session set_entropy].
    split; [apply lookup_insert_eq | reflexivity].
Qed.

(** *** Construction of the retrieval chains *)

Lemma chains_built_app a b :
  chains_built (a ++ b) = (chains_built a ++ chains_built b)%list.
Proof.
  induction a as [|e a IH]; [reflexivity|].
  destruct e; cbn [chains_built app]; rewrite IH; reflexivity.
Qed.

Lemma session_state_chains w : chains_built (trace (initialize_session_state w)) = [].
Proof.
  destruct (w_session w !! "messages") eqn:E.
  - rewrite initialize_session_state_present by (rewrite E; eauto). reflexivity.
  - rewrite initialize_session_state_absent by assumption. reflexivity.
Qed.

Lemma session_id_chains w : chains_built (trace (initialize_session_id rt w)) = [].
Proof.
  destruct (w_session w !! "session_id") eqn:E.
  - rewrite initialize_session_id_present by (rewrite E; eauto). reflexivity.
  - rewrite initialize_session_id_absent by assumption. reflexivity.
Qed.

Lemma logger_chains w : chains_built (trace (initialize_logger ct rt w)) = [].
Proof.
  destruct (has_handlers w) eqn:Hh.
  - rewrite initialize_logger_configured by assumption. reflexivity.
  - destruct (w_session w !! "session_id") as [v|] eqn:Hs.
    + rewrite (initialize_logger_attach ct rt w v) by assumption. reflexivity.
    + rewrite initialize_logger_no_session_id by assumption. reflexivity.
Qed.

Lemma agent_key_before w :
  w_session (final (initialize_logger ct rt
     (final (initialize_session_id rt (final (initialize_session_state w))))))
    !! "agent_executor" = w_session w !! "agent_executor".
Proof.
  rewrite logger_session, session_id_other by discriminate.
  apply session_state_other. unfold session_state_keys. intros H.
  repeat (apply elem_of_cons in H as [H|H]; [discriminate H|]). inversion H.
Qed.

(** X13: [initialize] builds the four retrieval chains (customer, service,
    company and all-data database paths, in this order) only when the session
    has no agent executor yet; on a session that has one it builds none. *)
Theorem chains_built_once w :
  let o := initialize ct rt w in
  (w_session w !! "agent_executor" = None ->
     chains_built (trace o) =
       [DB_CUSTOMER_PATH ct; DB_SERVICE_PATH ct; DB_COMPANY_PATH ct; DB_ALL_PATH ct]) /\
  (is_Some (w_session w !! "agent_executor") -> chains_built (trace o) = []).
Proof.
  intros o. subst o. rewrite initialize_trace, !chains_built_app.
  rewrite session_state_chains, session_id_chains, logger_chains.
  pose proof (agent_key_before w) as Hk.
  split.
  - intros Ha. rewrite Ha in Hk.
    rewrite initialize_agent_executor_absent by exact Hk. reflexivity.
  - intros Ha. rewrite <- Hk in Ha.
    rewrite initialize_agent_executor_present by exact Ha. reflexivity.
Qed.

(** *** The logger step at its edges *)

Lemma the_logger_after_open w : the_logger (after_open ct w) = the_logger w.
Proof. destruct w as [s d f [lg|] anc n]; reflexivity. Qed.

Lemma has_handlers_after_open w : has_handlers (after_open ct w) = has_handlers w.
Proof. destruct w as [s d f [lg|] anc n]; reflexivity. Qed.

Lemma the_logger_after_attach sid w :
  the_logger (after_attach ct sid w) =
    {| lg_level := INFO;
       lg_handlers := lg_handlers (the_logger w) ++ [log_handler ct sid];
       lg_propagate := lg_propagate (the_logger w) |}.
Proof. destruct w as [s d f [lg|] anc n]; reflexivity. Qed.

(** X2: called while the session has no "session_id" and no handler is
    configured, [initialize_logger] raises [AttributeError] only after it has
    created the log directory and opened the log file; it attaches no handler
    and leaves the level alone, so the guard is still open and a later call,
    once the session id exists, configures the logger as usual. *)
Theorem initialize_logger_missing_session_id w v :
  has_handlers w = false ->
  w_session w !! "session_id" = None ->
  let o := initialize_logger ct rt w in
  result o = inl (AttributeError "session_id") /\
  LOG_DIR_PATH ct ∈ w_dirs (final o) /\
  os_path_join (LOG_DIR_PATH ct) (LOG_FILE ct) ∈ w_files (final o) /\
  lg_handlers (the_logger (final o)) = [] /\
  lg_level (the_logger (final o)) = lg_level (the_logger w) /\
  has_handlers (final o) = false /\
  let retry := initialize_logger ct rt (set_session (insert "session_id" v) (final o)) in
  result retry = inr tt /\
  lg_handlers (the_logger (final retry)) = [log_handler ct (py_str rt v)].
Proof.
  intros Hh Hs o. subst o.
  rewrite initialize_logger_no_session_id by assumption. cbn [result final].
  assert (Hh' : has_handlers (after_open ct w) = false)
    by (rewrite has_handlers_after_open; exact Hh).
  split; [reflexivity|].
  split; [destruct w; apply elem_of_union_l, elem_of_singleton; reflexivity|].
  split; [destruct w; apply elem_of_union_l, elem_of_singleton; reflexivity|].
  split; [rewrite the_logger_after_open; apply no_handlers_own, Hh|].
  split; [rewrite the_logger_after_open; reflexivity|].
  split; [exact Hh'|].
  assert (Hh2 : has_handlers (set_session (insert "session_id" v) (after_open ct w))
                = false)
    by (rewrite has_handlers_set_session; exact Hh').
  assert (Hv : w_session (set_session (insert "session_id" v) (after_open ct w))
               !! "session_id" = Some v)
    by (destruct w; apply lookup_insert_eq).
  rewrite (initialize_logger_attach ct rt _ v Hh2 Hv). cbn [result final].
  split; [reflexivity | apply after_attach_handlers, Hh2].
Qed.


Lemma calls_configured_quiet sessions : forall w,
  has_handlers w = true ->
  let o := initialize_logger_calls ct rt sessions w in
  w_files (final o) = w_files w /\ keys_read (trace o) = [].
Proof.
  induction sessions as [|s rest IH]; intros w Hh o; subst o.
  - split; reflexivity.
  - cbn [initialize_logger_calls].
    assert (Hh' : has_handlers (set_session (fun _ => s) w) = true)
      by (rewrite has_handlers_set_session; exact Hh).
    assert (R1 : result (initialize_logger ct rt (final (modify (set_session (fun _ => s)) w)))
                 = inr tt)
      by (cbn [modify final]; rewrite initialize_logger_configured by exact Hh';
          reflexivity).
    assert (F1 : final (initialize_logger ct rt (final (modify (set_session (fun _ => s)) w)))
                 = after_makedirs ct (set_session (fun _ => s) w))
      by (cbn [modify final]; rewrite initialize_logger_configured by exact Hh';
          reflexivity).
    assert (T1 : trace (initialize_logger ct rt (final (modify (set_session (fun _ => s)) w)))
                 = logger_prologue ct true)
      by (cbn [modify final]; rewrite initialize_logger_configured by exact Hh';
          reflexivity).
    assert (Hh2 : has_handlers (after_makedirs ct (set_session (fun _ => s) w)) = true)
      by (rewrite has_handlers_after_makedirs; exact Hh').
    destruct (IH _ Hh2) as (Hf & Hk).
    rewrite seq_final, seq_final, seq_trace, seq_trace
      by (first [apply modify_result | exact R1]).
    rewrite F1, T1. split.
    + rewrite Hf. destruct w; reflexivity.
    + assert (Happ : forall a b, keys_read (a ++ b) = (keys_read a ++ keys_read b)%list).
      { induction a as [|e a IHa]; intros b; [reflexivity|].
        destruct e; cbn [keys_read app]; rewrite IHa; reflexivity. }
      rewrite !Happ, Hk. reflexivity.
Qed.

(** X4: when the logger has no handler of its own but [hasHandlers] is true
    through a parent logger, no number of calls of [initialize_logger], from
    whatever sessions, ever attaches the file handler: the calls return
    normally, never read the session state (so a missing session id is not
    noticed), open no log file and leave the logger without a handler. *)
Theorem configured_parent_blocks_file_logging sessions w :
  lg_handlers (the_logger w) = [] ->
  has_handlers w = true ->
  let o := initialize_logger_calls ct rt sessions w in
  result o = inr tt /\
  lg_handlers (the_logger (final o)) = [] /\
  added_handlers (trace o) = O /\
  w_files (final o) = w_files w /\
  keys_read (trace o) = [].
Proof.
  intros Hown Hh o. subst o.
  destruct (calls_configured ct rt sessions w Hh) as (R & H & A).
  destruct (calls_configured_quiet sessions w Hh) as (F & K).
  split; [exact R|]. split; [rewrite H; exact Hown|].
  split; [exact A|]. split; [exact F | exact K].
Qed.

(** *** Which session id the log lines carry *)

Lemma length_append (a b : string) :
  String.length (a ++ b) = (String.length a + String.length b)%nat.
Proof.
  induction a as [|c a IH]; [reflexivity|].
  change (S (String.length (a ++ b)) = S (String.length a + String.length b)).
  rewrite IH. reflexivity.
Qed.

Lemma append_cancel_l (p a b : string) : p ++ a = p ++ b -> a = b.
Proof.
  induction p as [|c p IH]; intros H; [exact H|].
  change (String c (p ++ a) = String c (p ++ b)) in H.
  injection H as H. apply IH, H.
Qed.

Lemma append_cancel_r (s : string) : forall a b : string, a ++ s = b ++ s -> a = b.
Proof.
  induction a as [|c a IH]; intros [|c' b] H.
  - reflexivity.
  - apply (f_equal String.length) in H. rewrite !length_append in H.
    cbn [String.length] in H. lia.
  - apply (f_equal String.length) in H. rewrite !length_append in H.
    cbn [String.length] in H. lia.
  - change (String c (a ++ s) = String c' (b ++ s)) in H.
    injection H as -> H. f_equal. apply IH, H.
Qed.

Lemma log_format_inj a b : log_format a = log_format b -> a = b.
Proof.
  unfold log_format. intros H.
  apply append_cancel_l in H. apply append_cancel_r in H. exact H.
Qed.

Lemma initialize_session_id_at w :
  w_session (final (initialize ct rt w)) !! "session_id" =
  w_session (final (initialize_session_id rt (final (initialize_session_state w))))
    !! "session_id".
Proof.
  rewrite initialize_final, agent_executor_session_id, logger_session. reflexivity.
Qed.

Lemma before_logger_step w :
  let w2 := final (initialize_session_id rt (final (initialize_session_state w))) in
  the_logger w2 = the_logger w /\ w_ancestors w2 = w_ancestors w /\
  has_handlers w2 = has_handlers w.
Proof.
  intros w2. subst w2.
  destruct (session_state_rest w) as (_ & _ & Hl1 & Ha1 & _).
  destruct (session_id_rest (final (initialize_session_state w)))
    as (_ & _ & Hl2 & Ha2).
  assert (Hl : the_logger (final (initialize_session_id rt
                 (final (initialize_session_state w)))) = the_logger w)
    by (apply the_logger_same; rewrite Hl2; exact Hl1).
  assert (Ha : w_ancestors (final (initialize_session_id rt
                 (final (initialize_session_state w)))) = w_ancestors w)
    by (rewrite Ha2; exact Ha1).
  split; [exact Hl|]. split; [exact Ha|]. apply has_handlers_same; assumption.
Qed.

Lemma initialize_the_logger_fresh w :
  has_handlers w = false ->
  exists idA,
    w_session (final (initialize ct rt w)) !! "session_id" = Some idA /\
    the_logger (final (initialize ct rt w)) =
      {| lg_level := INFO; lg_handlers := [log_handler ct (py_str rt idA)];
         lg_propagate := lg_propagate (the_logger w) |} /\
    w_ancestors (final (initialize ct rt w)) = w_ancestors w.
Proof.
  intros Hh.
  destruct (before_logger_step w) as (Hl & Ha & Hh2). rewrite Hh in Hh2.
  destruct (session_id_guard rt (final (initialize_session_state w))) as [idA Hid].
  exists idA. split; [rewrite initialize_session_id_at; exact Hid|].
  rewrite initialize_final.
  destruct (agent_executor_rest
              (final (initialize_logger ct rt
                 (final (initialize_session_id rt
                    (final (initialize_session_state w)))))))
    as (-> & -> & _).
  rewrite (initialize_logger_attach ct rt _ idA Hh2 Hid). cbn [final].
  rewrite the_logger_after_attach, Hl.
  rewrite (no_handlers_own w Hh). split; [reflexivity|].
  rewrite <- Ha.
  destruct (final (initialize_session_id rt (final (initialize_session_state w))));
    reflexivity.
Qed.

Lemma initialize_the_logger_configured w :
  has_handlers w = true ->
  the_logger (final (initialize ct rt w)) = the_logger w /\
  w_ancestors (final (initialize ct rt w)) = w_ancestors w.
Proof.
  intros Hh.
  destruct (before_logger_step w) as (Hl & Ha & Hh2). rewrite Hh in Hh2.
  rewrite initialize_final.
  destruct (agent_executor_rest
              (final (initialize_logger ct rt
                 (final (initialize_session_id rt
                    (final (initialize_session_state w)))))))
    as (-> & -> & _).
  rewrite initialize_logger_configured by exact Hh2. cbn [final].
  rewrite the_logger_after_makedirs, Hl. split; [reflexivity|].
  rewrite <- Ha.
  destruct (final (initialize_session_id rt (final (initialize_session_state w))));
    reflexivity.
Qed.

(** X10: the logger is shared by the process and configured once: when a
    first session runs [initialize] in a process without handlers and a second
    session (with any session state of its own) runs it afterwards, the single
    handler still carries the format built for the first session, so the
    second session's log lines are written under the first session's id
    whenever the two ids differ. *)
Theorem first_session_tags_the_log w sB :
  has_handlers w = false ->
  let oA := initialize ct rt w in
  let oB := initialize ct rt (set_session (fun _ => sB) (final oA)) in
  exists idA idB h,
    w_session (final oA) !! "session_id" = Some idA /\
    w_session (final oB) !! "session_id" = Some idB /\
    lg_handlers (the_logger (final oB)) = [h] /\
    h_formatter h = Some (log_format (py_str rt idA)) /\
    (py_str rt idB <> py_str rt idA ->
     h_formatter h <> Some (log_format (py_str rt idB))).
Proof.
  intros Hh oA oB. subst oA oB.
  destruct (initialize_the_logger_fresh w Hh) as (idA & HidA & HlA & HaA).
  pose proof (initialize_initialized ct rt w) as (_ & _ & _ & _ & _ & HhA).
  assert (HhB : has_handlers (set_session (fun _ => sB) (final (initialize ct rt w)))
                = true)
    by (rewrite has_handlers_set_session; exact HhA).
  destruct (initialize_the_logger_configured _ HhB) as (HlB & _).
  pose proof (initialize_initialized ct rt
                (set_session (fun _ => sB) (final (initialize ct rt w))))
    as (_ & [idB HidB] & _).
  exists idA, idB, (log_handler ct (py_str rt idA)).
  split; [exact HidA|]. split; [exact HidB|]. split.
  - rewrite HlB.
    replace (the_logger (set_session (fun _ => sB) (final (initialize ct rt w))))
      with (the_logger (final (initialize ct rt w)))
      by (destruct (final (initialize ct rt w)); reflexivity).
    rewrite HlA. reflexivity.
  - split; [reflexivity|].
    intros Hne Heq. cbn [log_handler h_formatter] in Heq.
    apply (inj Some) in Heq. apply log_format_inj in Heq. apply Hne. symmetry. exact Heq.
Qed.

Lemma hex_percent_free s : all_hex s = true -> percent_free s = true.
Proof.
  induction s as [|c s IH]; [reflexivity|].
  cbn [all_hex percent_free]. intros H. apply andb_prop in H as [Hc Hs].
  rewrite (IH Hs), andb_true_r.
  destruct (bool_decide (c = "%"%char)) eqn:E; [|reflexivity].
  apply bool_decide_eq_true in E. subst c. vm_compute in Hc. discriminate Hc.
Qed.

(** X11: if [uuid4().hex] is lower-case hexadecimal text, then for a session
    that gets its id from [initialize] in a process without handlers, the
    format that [initialize] installs renders every log record, as the line
    with severity, timestamp, line number, function name, that id and the
    message. *)
Theorem generated_id_renders w :
  (forall n, all_hex (uuid4_hex rt n) = true) ->
  w_session w !! "session_id" = None ->
  has_handlers w = false ->
  let o := initialize ct rt w in
  exists h fmt,
    lg_handlers (the_logger (final o)) = [h] /\
    h_formatter h = Some fmt /\
    forall r, formatMessage fmt r = Some (log_line (uuid4_hex rt (w_entropy w)) r).
Proof.
  intros Hhex Hs Hh o. subst o.
  destruct (initialize_the_logger_fresh w Hh) as (idA & HidA & HlA & _).
  assert (Hid : idA = VStr (uuid4_hex rt (w_entropy w))).
  { rewrite initialize_session_id_at in HidA.
    assert (Hs1 : w_session (final (initialize_session_state w)) !! "session_id" = None).
    { rewrite session_state_other; [exact Hs|].
      unfold session_state_keys. intros H.
      repeat (apply elem_of_cons in H as [H|H]; [discriminate H|]). inversion H. }
    destruct (session_state_rest w) as (_ & _ & _ & _ & He).
    rewrite initialize_session_id_absent in HidA by exact Hs1.
    rewrite He in HidA.
    destruct (final (initialize_session_state w)).
    cbn [final w_session set_session set_entropy] in HidA.
    rewrite lookup_insert_eq in HidA. injection HidA as <-. reflexivity. }
  subst idA. cbn [py_str] in HlA.
  exists (log_handler ct (uuid4_hex rt (w_entropy w))),
    (log_format (uuid4_hex rt (w_entropy w))).
  split; [rewrite HlA; reflexivity|]. split; [reflexivity|].
  intros r. apply log_format_renders, hex_percent_free, Hhex.
Qed.

(** X12: the session id is copied into the format string as it is: if it
    ends with a percent sign, the format that [initialize_logger] builds is
    not a valid [%]-format and formatting any record with it fails. *)
Theorem percent_in_session_id_breaks_format p r :
  percent_free p = true ->
  formatMessage (log_format (p ++ "%")) r = None.
Proof.
  intros Hfree. unfold formatMessage, log_format.
  rewrite (append_assoc p "%" ": %(message)s").
  change ("[%(levelname)s] %(asctime)s line %(lineno)s, in %(funcName)s, session_id="
            ++ p ++ "%" ++ ": %(message)s")
    with ("[" ++ "%(" ++ "levelname" ++ ")s" ++ "] " ++ "%(" ++ "asctime" ++ ")s"
          ++ " line " ++ "%(" ++ "lineno" ++ ")s" ++ ", in "
          ++ "%(" ++ "funcName" ++ ")s" ++ ", session_id=" ++ p
          ++ String "%" (String ":" " %(message)s")).
  rewrite (percent_format_text _ "[") by reflexivity.
  rewrite (percent_format_field _ "levelname") by reflexivity.
  rewrite (percent_format_text _ "] ") by reflexivity.
  rewrite (percent_format_field _ "asctime") by reflexivity.
  rewrite (percent_format_text _ " line ") by reflexivity.
  rewrite (percent_format_field _ "lineno") by reflexivity.
  rewrite (percent_format_text _ ", in ") by reflexivity.
  rewrite (percent_format_field _ "funcName") by reflexivity.
  rewrite (percent_format_text _ ", session_id=") by reflexivity.
  rewrite (percent_format_text _ p) by exact Hfree.
  change (record_field r "levelname") with (Some (levelname r)).
  change (record_field r "asctime") with (Some (asctime r)).
  change (record_field r "lineno") with (Some (pretty (lineno r))).
  change (record_field r "funcName") with (Some (funcName r)).
  reflexivity.
Qed.

(** *** The tools *)

(** X6: when the five configured tool names are pairwise distinct, each name
    in the list that [initialize_agent_executor] builds is bound to its own
    function and to no other: the company, service and customer names to the
    chain of that partition, the web name to the [run] of the search wrapper,
    the all-data name to the chain over all data. *)
Theorem tools_bound_to_their_functions search t :
  NoDup [SEARCH_COMPANY_INFO_TOOL_NAME ct; SEARCH_SERVICE_INFO_TOOL_NAME ct;
         SEARCH_CUSTOMER_COMMUNICATION_INFO_TOOL_NAME ct;
         SEARCH_WEB_INFO_TOOL_NAME ct; SEARCH_ALL_DATA_TOOL_NAME ct] ->
  t ∈ tools ct search ->
  (tool_name t = SEARCH_COMPANY_INFO_TOOL_NAME ct -> tool_func t = run_company_doc_chain) /\
  (tool_name t = SEARCH_SERVICE_INFO_TOOL_NAME ct -> tool_func t = run_service_doc_chain) /\
  (tool_name t = SEARCH_CUSTOMER_COMMUNICATION_INFO_TOOL_NAME ct ->
     tool_func t = run_customer_doc_chain) /\
  (tool_name t = SEARCH_WEB_INFO_TOOL_NAME ct -> tool_func t = search) /\
  (tool_name t = SEARCH_ALL_DATA_TOOL_NAME ct -> tool_func t = run_all_data_doc_chain).
Proof.
  intros Hn Ht.
  repeat (apply NoDup_cons in Hn as [? Hn]).
  unfold tools in Ht.
  repeat (apply elem_of_cons in Ht as [->|Ht]);
    [ .. | inversion Ht ];
    cbn [tool_name tool_func];
    repeat split; intros Heq; first [reflexivity | exfalso; set_solver].
Qed.

End MoreFacts.

(** ** The further theorems at concrete inputs *)

Lemma initialize_session_id_spec_witness :
  w_session fresh_world !! "session_id" = None /\
  w_session (final (initialize_session_id sample_runtime fresh_world)) !! "session_id"
    = Some (VStr "3f2b8c1d9e4a4f6b8a7c5d2e1f0a9b8c") /\
  final (initialize_session_id sample_runtime world_with_id) = world_with_id.
Proof.
  assert (H1 : w_session fresh_world !! "session_id" = None) by reflexivity.
  assert (H2 : w_session world_with_id !! "session_id"
               = Some (VStr "3f2b8c1d9e4a4f6b8a7c5d2e1f0a9b8c"))
    by (vm_compute; reflexivity).
  split; [exact H1|]. split.
  - exact (proj1 (proj1 (proj2 (proj2
      (initialize_session_id_spec sample_runtime fresh_world))) H1)).
  - exact (proj1 (proj2 (initialize_session_id_spec sample_runtime world_with_id))
             _ H2).
Defined.

Lemma initialize_logger_missing_session_id_witness :
  has_handlers fresh_world = false /\
  w_session fresh_world !! "session_id" = None /\
  result (initialize_logger sample_constants sample_runtime fresh_world)
    = inl (AttributeError "session_id").
Proof.
  assert (H1 : has_handlers fresh_world = false) by reflexivity.
  assert (H2 : w_session fresh_world !! "session_id" = None) by reflexivity.
  split; [exact H1|]. split; [exact H2|].
  exact (proj1 (initialize_logger_missing_session_id sample_constants sample_runtime
                  fresh_world (VStr "abc") H1 H2)).
Defined.


Lemma configured_parent_blocks_file_logging_witness :
  lg_handlers (the_logger world_root_configured) = [] /\
  has_handlers world_root_configured = true /\
  lg_handlers (the_logger (final
    (initialize_logger_calls sample_constants sample_runtime [∅; session_with_id]
       world_root_configured))) = [].
Proof.
  assert (H1 : lg_handlers (the_logger world_root_configured) = []) by reflexivity.
  assert (H2 : has_handlers world_root_configured = true) by reflexivity.
  split; [exact H1|]. split; [exact H2|].
  exact (proj1 (proj2 (configured_parent_blocks_file_logging sample_constants
                         sample_runtime [∅; session_with_id] world_root_configured
                         H1 H2))).
Defined.

Lemma initialize_agent_executor_spec_witness :
  w_session fresh_world !! "agent_executor" = None /\
  w_session (final (initialize_agent_executor sample_constants fresh_world))
    !! "rag_chain" = Some (VRagChain "./.db_all").
Proof.
  assert (H1 : w_session fresh_world !! "agent_executor" = None) by reflexivity.
  split; [exact H1|].
  exact (proj1 (proj2 (proj2 (proj2 (proj2 (proj2 (proj2
    (proj1 (initialize_agent_executor_spec sample_constants fresh_world) H1)))))))).
Defined.

Lemma tools_bound_to_their_functions_witness :
  exists t,
    t ∈ tools sample_constants search_run /\
    tool_name t = "search_web_tool" /\
    tool_func t = search_run.
Proof.
  assert (Hn : NoDup [SEARCH_COMPANY_INFO_TOOL_NAME sample_constants;
                      SEARCH_SERVICE_INFO_TOOL_NAME sample_constants;
                      SEARCH_CUSTOMER_COMMUNICATION_INFO_TOOL_NAME sample_constants;
                      SEARCH_WEB_INFO_TOOL_NAME sample_constants;
                      SEARCH_ALL_DATA_TOOL_NAME sample_constants])
    by (apply (bool_decide_unpack _); vm_compute; exact I).
  set (t := List.nth 3 (tools sample_constants search_run) (mkTool "" search_run "")).
  assert (Ht : t ∈ tools sample_constants search_run)
    by (do 3 apply list_elem_of_further; apply list_elem_of_here).
  exists t. split; [exact Ht|]. split; [reflexivity|].
  exact (proj1 (proj2 (proj2 (proj2
    (tools_bound_to_their_functions sample_constants search_run t Hn Ht)))) eq_refl).
Defined.

Lemma initialize_frame_witness :
  ("user_name" ∉ written_keys) /\
  w_session (final (initialize sample_constants sample_runtime
                      (set_session (insert "user_name" (VStr "Aki")) fresh_world)))
    !! "user_name" = Some (VStr "Aki").
Proof.
  assert (H1 : "user_name" ∉ written_keys)
    by (apply (bool_decide_unpack _); vm_compute; exact I).
  split; [exact H1|].
  exact (eq_trans
    (initialize_frame sample_constants sample_runtime
       (set_session (insert "user_name" (VStr "Aki")) fresh_world) "user_name" H1)
    (lookup_insert_eq _ _ _)).
Defined.

Lemma initialize_keeps_conversation_witness :
  is_Some (w_session (set_session (insert "messages" (VList [VStr "hi"])) fresh_world)
             !! "messages") /\
  "messages" ∈ session_state_keys /\
  w_session (final (initialize sample_constants sample_runtime
                      (set_session (insert "messages" (VList [VStr "hi"])) fresh_world)))
    !! "messages" = Some (VList [VStr "hi"]).
Proof.
  assert (H1 : is_Some (w_session (set_session (insert "messages" (VList [VStr "hi"]))
                                     fresh_world) !! "messages"))
    by (exists (VList [VStr "hi"]); vm_compute; reflexivity).
  assert (H2 : "messages" ∈ session_state_keys) by apply list_elem_of_here.
  split; [exact H1|]. split; [exact H2|].
  exact (eq_trans
    (initialize_keeps_conversation sample_constants sample_runtime
       (set_session (insert "messages" (VList [VStr "hi"])) fresh_world)
       "messages" H1 H2)
    (lookup_insert_eq _ _ _)).
Defined.

Lemma initialize_session_id_kept_witness :
  w_session world_with_id !! "session_id"
    = Some (VStr "3f2b8c1d9e4a4f6b8a7c5d2e1f0a9b8c") /\
  w_session (final (initialize sample_constants sample_runtime world_with_id))
    !! "session_id" = Some (VStr "3f2b8c1d9e4a4f6b8a7c5d2e1f0a9b8c") /\
  w_entropy (final (initialize sample_constants sample_runtime world_with_id)) = O.
Proof.
  assert (H1 : w_session world_with_id !! "session_id"
               = Some (VStr "3f2b8c1d9e4a4f6b8a7c5d2e1f0a9b8c"))
    by (vm_compute; reflexivity).
  split; [exact H1|].
  exact (proj1 (initialize_session_id_kept sample_constants sample_runtime world_with_id)
           _ H1).
Defined.

Lemma first_session_tags_the_log_witness :
  has_handlers fresh_world = false /\
  exists idA idB h,
    w_session (final (initialize sample_constants sample_runtime fresh_world))
      !! "session_id" = Some idA /\
    w_session (final (initialize sample_constants sample_runtime
                        (set_session (fun _ => ∅)
                           (final (initialize sample_constants sample_runtime
                                     fresh_world)))))
      !! "session_id" = Some idB /\
    lg_handlers (the_logger (final (initialize sample_constants sample_runtime
                        (set_session (fun _ => ∅)
                           (final (initialize sample_constants sample_runtime
                                     fresh_world)))))) = [h] /\
    h_formatter h = Some (log_format (py_str sample_runtime idA)).
Proof.
  assert (H1 : has_handlers fresh_world = false) by reflexivity.
  split; [exact H1|].
  destruct (first_session_tags_the_log sample_constants sample_runtime fresh_world ∅ H1)
    as (idA & idB & h & HA & HB & Hh & Hf & _).
  exists idA, idB, h. repeat split; assumption.
Defined.

Lemma generated_id_renders_witness :
  (forall n, all_hex (uuid4_hex sample_runtime n) = true) /\
  w_session fresh_world !! "session_id" = None /\
  has_handlers fresh_world = false /\
  exists h fmt,
    lg_handlers (the_logger (final (initialize sample_constants sample_runtime
                                      fresh_world))) = [h] /\
    h_formatter h = Some fmt.
Proof.
  assert (H1 : forall n, all_hex (uuid4_hex sample_runtime n) = true)
    by (intros n; vm_compute; reflexivity).
  assert (H2 : w_session fresh_world !! "session_id" = None) by reflexivity.
  assert (H3 : has_handlers fresh_world = false) by reflexivity.
  split; [exact H1|]. split; [exact H2|]. split; [exact H3|].
  destruct (generated_id_renders sample_constants sample_runtime fresh_world H1 H2 H3)
    as (h & fmt & Hh & Hf & _).
  exists h, fmt. split; assumption.
Defined.

Lemma percent_in_session_id_breaks_format_witness :
  percent_free "100" = true /\
  formatMessage (log_format "100%")
    (mkLogRecord "INFO" "2025-01-01 09:00:00,000" 42 "main" "started") = None.
Proof.
  assert (H1 : percent_free "100" = true) by (vm_compute; reflexivity).
  split; [exact H1|].
  exact (percent_in_session_id_breaks_format "100"
           (mkLogRecord "INFO" "2025-01-01 09:00:00,000" 42 "main" "started") H1).
Defined.

Lemma chains_built_once_witness :
  w_session fresh_world !! "agent_executor" = None /\
  chains_built (trace (initialize sample_constants sample_runtime fresh_world)) =
    ["./.db_customer"; "./.db_service"; "./.db_company"; "./.db_all"].
Proof.
  assert (H1 : w_session fresh_world !! "agent_executor" = None) by reflexivity.
  split; [exact H1|].
  exact (proj1 (chains_built_once sample_constants sample_runtime fresh_world) H1).
Defined.
